(** * The tipuesearch content payload of wcmj2021

    The repository holds two generated JavaScript data files,
    [content/tipuesearch_content.js] and a second near-duplicate of it.
    Each one is a single statement

      var tipuesearch = {"pages": [{'title': ..., 'text': ..., 'tags': ..., 'url': ...}, ...]};

    This development embeds the fragment of JavaScript the two files are
    written in (string literals with their escape sequences, array and
    object literals, a [var] declaration with an initialiser), gives it an
    executable semantics, transcribes the two files as syntax trees whose
    string literals keep the characters of the source, and proves the
    schema-level properties of the values the files evaluate to. *)

From Stdlib Require Import Strings.String Strings.Ascii Lists.List Bool.Bool.
From Stdlib Require Import NArith.NArith Arith.PeanoNat Lia.
Import ListNotations.

Set Warnings "-register-all".

Local Open Scope list_scope.
Local Open Scope string_scope.

(** ** Ordered association lists

    Own properties of a JavaScript object with non-index string keys are
    kept in insertion order, and so are the bindings of the global
    environment.  Writing an existing key replaces the value in place;
    writing a new key appends it. *)

Module Assoc.

Section WithValues.

Context {A : Type}.

Fixpoint get (k : string) (l : list (string * A)) : option A :=
  match l with
  | [] => None
  | (k', v) :: l' => if String.eqb k k' then Some v else get k l'
  end.

Fixpoint set (k : string) (v : A) (l : list (string * A)) : list (string * A) :=
  match l with
  | [] => [(k, v)]
  | (k', v') :: l' =>
      if String.eqb k k' then (k', v) :: l' else (k', v') :: set k v l'
  end.

Definition keys (l : list (string * A)) : list string := map fst l.

End WithValues.

End Assoc.

(** ** The JavaScript fragment *)

Module Js.

(** *** String literals

    A literal is kept as it is spelled in the source: the delimiter used
    and the characters between the delimiters, escape sequences included.
    The source files are UTF-8 encoded, and the embedding represents a
    JavaScript string value by the UTF-8 bytes of its code points.  UTF-8
    encoding is injective and commutes with concatenation, so equality,
    emptiness, prefixes and suffixes of the string values are those of
    their byte strings. *)

Inductive Quote : Type := SingleQuote | DoubleQuote.

Record StringLiteral : Type := mkLit { lit_quote : Quote; lit_raw : string }.

Definition apostrophe : ascii := "039"%char.
Definition quotation_mark : ascii := "034"%char.
Definition backslash : ascii := "092"%char.

Definition quote_char (q : Quote) : ascii :=
  match q with
  | SingleQuote => apostrophe
  | DoubleQuote => quotation_mark
  end.

Definition is_line_terminator (c : ascii) : bool :=
  Ascii.eqb c "010"%char || Ascii.eqb c "013"%char.

Definition hex_digit (c : ascii) : option N :=
  let n := N_of_ascii c in
  if N.leb 48 n && N.leb n 57 then Some (n - 48)%N
  else if N.leb 97 n && N.leb n 102 then Some (n - 87)%N
  else if N.leb 65 n && N.leb n 70 then Some (n - 55)%N
  else None.

(** UTF-8 bytes of a code point of the basic multilingual plane, which
    is all that the escapes [\xHH] and [\uHHHH] can denote. *)
Definition utf8_encode (cp : N) : string :=
  if N.ltb cp 128 then
    String (ascii_of_N cp) ""
  else if N.ltb cp 2048 then
    String (ascii_of_N (192 + cp / 64))
      (String (ascii_of_N (128 + cp mod 64)) "")
  else
    String (ascii_of_N (224 + cp / 4096))
      (String (ascii_of_N (128 + (cp / 64) mod 64))
         (String (ascii_of_N (128 + cp mod 64)) "")).

(** The character a one-character escape stands for.  Decimal digits
    (the NUL escape and the legacy octal escapes) and an escaped line
    terminator (a line continuation) are outside the fragment. *)
Definition single_escape (c : ascii) : option ascii :=
  if Ascii.eqb c "b" then Some "008"%char
  else if Ascii.eqb c "t" then Some "009"%char
  else if Ascii.eqb c "n" then Some "010"%char
  else if Ascii.eqb c "v" then Some "011"%char
  else if Ascii.eqb c "f" then Some "012"%char
  else if Ascii.eqb c "r" then Some "013"%char
  else if is_line_terminator c then None
  else if N.leb 48 (N_of_ascii c) && N.leb (N_of_ascii c) 57 then None
  else Some c.

Inductive Mode : Type :=
| Plain
| Escape
| Hex (need : nat) (acc : N).

(** The string value of the body of a literal, or [None] when the body
    is not a well-formed literal body for the delimiter [q]. *)
Fixpoint scan (q : Quote) (m : Mode) (body : string) : option string :=
  match body with
  | EmptyString =>
      match m with
      | Plain => Some EmptyString
      | _ => None
      end
  | String c rest =>
      match m with
      | Plain =>
          if Ascii.eqb c backslash then scan q Escape rest
          else if Ascii.eqb c (quote_char q) || is_line_terminator c then None
          else option_map (String c) (scan q Plain rest)
      | Escape =>
          if Ascii.eqb c "x" then scan q (Hex 2 0) rest
          else if Ascii.eqb c "u" then scan q (Hex 4 0) rest
          else
            match single_escape c with
            | Some d => option_map (String d) (scan q Plain rest)
            | None => None
            end
      | Hex need acc =>
          match hex_digit c with
          | None => None
          | Some d =>
              let acc' := (16 * acc + d)%N in
              match need with
              | 0 => None
              | 1 => option_map (append (utf8_encode acc')) (scan q Plain rest)
              | S need' => scan q (Hex need' acc') rest
              end
          end
      end
  end.

Definition string_value (l : StringLiteral) : option string :=
  scan (lit_quote l) Plain (lit_raw l).

(** *** Values *)

Inductive Value : Type :=
| VUndefined
| VNull
| VString (s : string)
| VArray (elems : list Value)
| VObject (props : list (string * Value)).

Definition typeof (v : Value) : string :=
  match v with
  | VUndefined => "undefined"
  | VString _ => "string"
  | VNull | VArray _ | VObject _ => "object"
  end.

(** The value of own property [k] of an object, when it has one. *)
Definition own_property (v : Value) (k : string) : option Value :=
  match v with
  | VObject props => Assoc.get k props
  | _ => None
  end.

(** *** Expressions and their evaluation *)

Inductive Expr : Type :=
| EString (l : StringLiteral)
| EIdent (x : string)
| EArray (elems : list Expr)
| EObject (props : list (StringLiteral * Expr)).

Definition Env : Type := list (string * Value).

Section Sequencing.

Variable ev : Expr -> option Value.

(** Elements of an array literal, left to right. *)
Fixpoint eval_elems (es : list Expr) : option (list Value) :=
  match es with
  | [] => Some []
  | e :: es' =>
      match ev e, eval_elems es' with
      | Some v, Some vs => Some (v :: vs)
      | _, _ => None
      end
  end.

(** Property definitions of an object literal, left to right, each one
    defining its key on the object built so far. *)
Fixpoint eval_props (ps : list (StringLiteral * Expr))
    (acc : list (string * Value)) : option (list (string * Value)) :=
  match ps with
  | [] => Some acc
  | (k, e) :: ps' =>
      match string_value k, ev e with
      | Some k', Some v => eval_props ps' (Assoc.set k' v acc)
      | _, _ => None
      end
  end.

End Sequencing.

(** [None] stands for an abrupt completion: a syntax error in a literal
    or a reference to an undeclared identifier. *)
Fixpoint eval (env : Env) (e : Expr) : option Value :=
  match e with
  | EString l => option_map VString (string_value l)
  | EIdent x => Assoc.get x env
  | EArray elems => option_map VArray (eval_elems (eval env) elems)
  | EObject props => option_map VObject (eval_props (eval env) props [])
  end.

(** An expression is closed when no identifier occurs in it. *)
Fixpoint closed (e : Expr) : bool :=
  match e with
  | EString _ => true
  | EIdent _ => false
  | EArray elems => forallb closed elems
  | EObject props => forallb (fun '(_, e') => closed e') props
  end.

(** Structural induction through the lists of an array or object
    literal. *)
Section ExprInduction.

Variable P : Expr -> Prop.
Hypothesis P_string : forall l, P (EString l).
Hypothesis P_ident : forall x, P (EIdent x).
Hypothesis P_array : forall elems, Forall P elems -> P (EArray elems).
Hypothesis P_object :
  forall props, Forall (fun '(_, e) => P e) props -> P (EObject props).

Fixpoint Expr_nested_ind (e : Expr) : P e :=
  match e with
  | EString l => P_string l
  | EIdent x => P_ident x
  | EArray elems =>
      P_array elems
        ((fix all (es : list Expr) : Forall P es :=
            match es with
            | [] => Forall_nil P
            | e' :: es' => Forall_cons e' (Expr_nested_ind e') (all es')
            end) elems)
  | EObject props =>
      P_object props
        ((fix all (ps : list (StringLiteral * Expr))
            : Forall (fun '(_, e) => P e) ps :=
            match ps with
            | [] => Forall_nil _
            | (k, e') :: ps' =>
                Forall_cons (k, e') (Expr_nested_ind e') (all ps')
            end) props)
  end.

End ExprInduction.

(** *** Statements and scripts *)

Inductive Stmt : Type :=
| SVar (x : string) (init : Expr).

Definition Script : Type := list Stmt.

Definition declared_name (s : Stmt) : string :=
  match s with
  | SVar x _ => x
  end.

(** Hoisting: every [var] name is bound before the first statement runs,
    to [undefined] unless the environment already binds it. *)
Definition hoist (p : Script) (env : Env) : Env :=
  fold_left
    (fun env' s =>
       match Assoc.get (declared_name s) env' with
       | Some _ => env'
       | None => Assoc.set (declared_name s) VUndefined env'
       end)
    p env.

Definition exec (env : Env) (s : Stmt) : option Env :=
  match s with
  | SVar x init =>
      match eval env init with
      | Some v => Some (Assoc.set x v env)
      | None => None
      end
  end.

Fixpoint exec_all (p : Script) (env : Env) : option Env :=
  match p with
  | [] => Some env
  | s :: p' =>
      match exec env s with
      | Some env' => exec_all p' env'
      | None => None
      end
  end.

Definition run (p : Script) (env : Env) : option Env :=
  exec_all p (hoist p env).

End Js.

Import Js.

(** * The two data files

    Every string literal is transcribed with the delimiter and the
    characters it has in the file.  A body is cut into pieces after each
    [\n] escape to keep the lines readable; [cat] joins the pieces, and
    [QQ] stands for a quotation mark inside a body. *)

Definition sq (body : string) : StringLiteral := mkLit SingleQuote body.
Definition dq (body : string) : StringLiteral := mkLit DoubleQuote body.
Definition cat (pieces : list string) : string := String.concat "" pieces.
Definition QQ : string := String quotation_mark "".

(** ** [content/tipuesearch_content.js]

    The file is the one statement [var tipuesearch = {"pages": [...]};]
    with twelve page records. *)

Module TipuesearchContentJs.

Definition page_00 : Expr :=
  EObject
    [ (sq "title", EString (sq "About"));
      (sq "text", EString (sq (cat
          [ "This is  https://github.com/mdecourse/cmstemplate \n";
            " 電腦輔助設計室與協同設計室行事曆 \n";
            " 全頁檢視 \n";
            " \n" ])));
      (sq "tags", EString (sq ""));
      (sq "url", EString (sq "About.html")) ].

Definition page_01 : Expr :=
  EObject
    [ (sq "title", EString (sq "三道牆理論"));
      (sq "text", EString (sq (cat
          [ "KMOLab 所開設課程目的是將擋在機械工程師面前的三道牆, 直接利用課程講授的過程, 一一呈現, 讓大家有及時找出突破這三道障礙的機會, 不僅讓各自的潛能有所發揮, 同時也希望大家能更自在地面對未來的更多挑戰. 這三道牆分別是: \n";
            " 理論基礎障礙 實務練習障礙 確立目標障礙 \n";
            " 理論基礎障礙 \n";
            " 所謂的理論基礎障礙就是技職體系學生在高中階段經常疏忽的英文, 數學與邏輯思考與獲取學問的基本能力. 也就是英文聽說讀寫的基本能力, 數學基本能力與了解如何透過邏輯思考解題, 並且學習如何發問, 如何與人協同合作解決問題的能力. \n";
            " 實務練習障礙 \n";
            " 第二道牆則是實務練習障礙, 許多人不願意花時間在突破上述第一道障礙的原因, 通常是因為不知道學習這些相對抽象的知識有甚麼用處? 因此, 為了凸顯突破第一道牆的重要性, 就必須要透過實際的課程案例, 讓大家了解一旦能突破第一道牆的障礙後, 養成持續學習這些理論基礎內容之後, 就可以相對用比較有效率的方式解決各種問題. \n";
            " 但是這需要學習者付出時間與耐性, 當面對完全陌生議題時, 就必須檢討是否第一道牆仍然卡在自己與解決方案中間. 然後用心不斷思考, 探索與練習之後, 若還是無法解決問題. 就必須要先試著描述問題後再尋求他人的協助. \n";
            " 假如能有以上的正確學習態度, 就有機會在面對各種問題時, 持續突破前面的兩道牆, 然後看到自己所追求的第三道牆, 並且此後能夠竭盡全力, 翻閱第三道牆的障礙, 積極達成預定目標. \n";
            " 確立目標障礙 \n";
            " 你的人生目標是甚麼?" ])));
      (sq "tags", EString (sq ""));
      (sq "url", EString (sq "三道牆理論.html")) ].

Definition page_02 : Expr :=
  EObject
    [ (sq "title", EString (sq "Blogger"));
      (sq "text", EString (sq (cat
          [ "網誌: \n";
            " https://www.blogger.com/ \n";
            " https://blog.getpelican.com/ \n";
            " 論壇: \n";
            " https://www.discourse.org/ \n";
            " https://jpme.eng.nfu.edu.tw \n";
            " https://forum.eng.nfu.edu.tw \n";
            " Blogger, Pelican 與 Discourse 內容能不能整合並同步? \n";
            " https://mdecourse.blogspot.com/2020/05/pelican-blogger_21.html   \n";
            " https://meta.discourse.org/t/how-can-i-implement-a-blog-page-in-discourse-forum-software/48496/6   \n" ])));
      (sq "tags", EString (sq ""));
      (sq "url", EString (sq "Blogger.html")) ].

Definition page_03 : Expr :=
  EObject
    [ (sq "title", EString (sq "個人電腦"));
      (sq "text", EString (sq (cat
          [ "機械工程師由於必須在個人電腦上繪製並顯示 3D 零組件, 因此個人電腦通常需要配備獨立顯示卡, 其基本規格與電競機類似: \n";
            " https://www.crucial.tw/articles/for-gamers/the-best-specs-for-a-gaming-pc \n";
            " CPU ( Central Processing Unit ) - 中央處理器 \n";
            " Intel Processor:  https://en.wikipedia.org/wiki/List_of_Intel_processors \n";
            " AMD Processor:  https://en.wikipedia.org/wiki/List_of_AMD_processors \n";
            " ARM Architecture:  https://en.wikipedia.org/wiki/ARM_architecture \n";
            " Apple Designed Processor:\xa0 https://en.wikipedia.org/wiki/Apple-designed_processors  \u3000 \n";
            " FULL HD ( High Definition ) \n";
            " Motherboard  主機板 \n";
            " RAM ( Random-Access Memory ) \n";
            " DDR ( Double Data Rate ) \n";
            " 何謂 HDD/SSD? 有何差別? \n";
            " 何謂 RPM? \n";
            " 何謂 ATA、PATA、與 SATA 連接埠? 有何差別? \n";
            " 何謂 Video Card? \n";
            " 何謂 fps? \n";
            " 何謂 DVI? \n";
            " 何謂 HDMI? \n";
            " 何謂  LED ? \n";
            " 何謂 DirectX? \n";
            " 何謂  Watt ? \n";
            " 何謂  Power ? \n";
            " 何謂 Hz ( Hertz )? \n";
            " Computer Monitor \n";
            " 何謂 ppi?" ])));
      (sq "tags", EString (sq ""));
      (sq "url", EString (sq "個人電腦.html")) ].

Definition page_04 : Expr :=
  EObject
    [ (sq "title", EString (sq "Network"));
      (sq "text", EString (dq (cat
          [ "Understanding bandwidth Bandwidth refers to the data rate that is supported by the network connection or the interfaces that connect to the network. It represents both volume and time, representing the amount of data that can be transmitted between two points in a set period of time. It is usually expressed in terms of bits per second (bps), or sometimes in bytes per second (Bps). Network bandwidth represents the capacity of the network connection, though it's important to understand the distinction between theoretical throughput and real-world results when figuring out the right bandwidth formula for your network. For example, a 1000BASE-T -- which uses unshielded twisted-pair cables -- Gigabit Ethernet (GbE) network can theoretically support 1,000 megabits per second (Mbps), but this level can never really be achieved in practice because of hardware and systems software overhead. One point to consider when thinking about how to calculate bandwidth needs on your network is this: Bandwidth should not be confused with throughput, which refers to speed. While high-bandwidth networks are often fast, that is not always the case. A helpful metaphor when thinking about bandwidth is cars on a highway. A high-bandwidth network is like a six-lane highway that can fit hundreds of cars at any given moment. A low-bandwidth network is like a single-lane road in which one car queues directly behind another. Although the large highway is likely to move vehicles faster, rush-hour traffic can easily bring cars and trucks to a standstill. Or, perhaps, the cars cannot get onto the highway quickly because it's clogged with large delivery trucks that take up a lot of space on the road. Similarly, even a high-bandwidth network can run slowly in the face of problems, such as congestion and bandwidth-hungry applications. These very points make calculating bandwidth requirements a challenge, yet the consequences of getting the bandwidth formula wrong are considerable. If you don't procure enough bandwidth, you all but guarantee the network will run slowly. However, significantly overprovisioning bandwidth can be cost-prohibitive for most enterprises. So, how do you determine the right formula that will meet your bandwidth requirements? The process begins with asking the right questions: What applications are users running, and what is the performance service-level agreement for these applications? I know some network managers who are only concerned with how many users are on a virtual LAN. What you really need to know is what the users will be doing on the network. It's possible that 200 users will cause less of a bottleneck than a group of three users that really beats the heck out of the network because of some funky client-server application or extensive use of a bandwidth-heavy service, like high-definition video conferencing. \n";
            " \n";
            " 了解  https://www.wireshark.org  的用法, 並藉以提升網路頻寬的使用效能及安全. \n";
            " 近端下載 \n";
            " http://a.kmol.info:88/Wireshark-win64-3.4.2.exe" ])));
      (sq "tags", EString (sq ""));
      (sq "url", EString (sq "Network.html")) ].

Definition page_05 : Expr :=
  EObject
    [ (sq "title", EString (sq "Switch"));
      (sq "text", EString (sq (cat
          [ "Not all switches are created equal. \n";
            " 來源 \n";
            " https://www.cisco.com/c/en/us/products/switches/index.html#~products \n";
            " https://www.cisco.com/c/dam/en/us/products/collateral/switches/catalyst-9300-series-switches/nb-06-upgrading-cat-9300-fc-cte-en.pdf \n";
            " internally to a switch a specialized hardware is needed to move frames between ports. This specific part can be called backplane (背板) or in some cases we talk of switching fabric (交換結構). When the forwarding capabilities of a backplane or switching fabric are greater then the sum of speeds of all ports (counted twice one for tx and one rx direction) we call the switching fabric non blocking: traffic between a pair of ports is not influenced by what traffic is exchanged on all other ports. The forwarding rate is expressed in packet per seconds and expresses how many packets per second are needed to reach a certain traffic volume (throughpout) Clearly forwarding rate depends on frame size. Ideally a backplane switching fabric should be non blocking for every frame size including the smallest ones (64 bytes in ethernet standard) but in reality most devices can be non blocking for an average size of 400 bytes. bandwidth: the speed of traffic. to convert between forwarding rate and used bandwidth we need to take in account some specific aspects of ethernet: each frame has an 8 byte preamble that is used to allow to potential receiver to synchronize with the signal between two frames a minimum silence interval must exist to allow receiver to discriminate between two frames preamble and inter frame gap counts for 20,2 bytes. So given an iP packet of size N the ethernet frame has size N+18\xa0 (header 14 bytes, FCS 4 byte) but counts as (N+18+20,2)*8 on wire 8 is number of bits in a byte with this kind of calculation using frames of minimum size 64 bytes you need 1488000 frames per second and per direction to fill a GE port. Be also aware that all figures you see sum tx and rx directions so if a switch has 100 M pps capability this accounts for a certain number of GE ports at 1 Gbps full duplex. \n";
            " Do not confuse the speed of the stackwise ring with the internal switching fabric of each stack member, they are different: the internal switching fabric should be used for traffic between ports on the same stack member device, the stackwise bandwidth should be used when traffic must flow between ports located on different stack members. Note: this is just my assumption about the implementation of stack, it may be different with the dual ring involved also for traffic between two ports on the same member switch. (total lack of so called local switching capabilities). The stack implements a dual ring topology between the member switches that act as an extension of the individual switching fabrics. The speed of the ring for a stack of only 3750-X (stackwise plus) should be 32 Gbps full duplex that allows for a very good interconnection between member switches, but I agree it is not enough to classify the composite switching fabric as not blocking. On the other hand, only models with 10GE ports can be interconnected at comparable speeds. To make a comparison a C6500 equipped with Sup720 generation route processor provides up to 40 Gbps per slot to/from the switching fabric and some linecards are faster then that ( think of\xa0 WS-6708 or WS-6716 with 8 and 16 tengiga ports respectively). About the forwarding capacity in pps: for a 24 ports device is listed as 65.5 Mbps that accounts for 22 GE ports 1Gbps full duplex with 64 byte frames. \n";
            " An original series 3750 (or 3560) fabric is 32 Gbps.\xa0 This is different from the stack ring\'s ";
            QQ;
            "32 Gbps";
            QQ;
            " (which is really dual 8 Gbps, duplex). An original series 3750 (or 3560) internal fabric, in theory, is oversubscribed by more than 16 gig ports (i.e. the ";
            QQ;
            "G";
            QQ;
            " suffixed original models). The terms non-blocking and blocking, when examining switch fabric isn\'t just sufficient bandwidth capacity to forward all port bandwidths, it\'s whether the fabric\'s architecture will block, or not, forwarding of frames even if there\'s ";
            QQ;
            "sufficient";
            QQ;
            " bandwidth. For example, you have three ingress ports.\xa0 Two are sending to one egress port (2:1) and the other is sending to other egress port (1:1).\xa0 If 2:1 congestion on the one egress port delays (or blocks) transmission on the 1:1 egress port, you have HOL (head-of-line) blocking even though the internal fabric\'s bandwidth could support each ingress port sending to a separate egress port (all 1:1). StackWise (and StackWise+), when available, use both ring ports. Original StackWise copies ALL member switch traffic to the stack ring.\xa0 Original StackWise source stack member also removes the traffic it placed on the stack ring. StackWise Plus only places unicast traffic on the stack ring when destination is not a local switch port.\xa0 Additionally, destination switch member removes unicast packets.\xa0 (I.e. StackWise+ uses it\'s ring much more intelligently.\xa0 It also has dual 16 Gbps stack ring ports.\xa0 NB:StackWise+, for the most part, reverts to StackWise operation if there\'s a StackWise only member switch in the stack [good reason not to use such mixed stacks].) Bits per second, is the transmission rate supported by the media.\xa0 So, for example, 100 Mbps allows transmission of 100,000,000 bits per seconds.\xa0 However, transferring actual data, in something like physical segments (e.g. frames) uses some of this capacity for both framing overhead and framing delineation, so useful capacity is less than the often quoted bps rate.\xa0 Useful capacity percentage (of overall rate) also generally decreases as frame size decreases.\xa0 (BTW, similar issue with disk media.\xa0 At least disk capacity isn\'t, generally, quoted for its unformatted capacity any longer.) The 25 Mbps throughput is rated for minimum sized packets.\xa0 Larger packets often allow much higher throughput as the packets per second requirement (for same bandwidth) decreases.\xa0 (Sometimes the vendor will document PPS rates for multiple packet sizes.\xa0 Without such documentation, or your own testing, just knowing documented performance for one packet size you cannot accurately predict a device\'s performance for other packet sizes.) \n";
            " 來源 \n";
            " Switch backplane bandwidth, switching capacity, packet forwarding rate difference Backplane bandwidth refers to the entire switching capacity of the backplane, switching capacity refers to the switching capacity of the CPU, and packet forwarding refers to the capacity of the three-layer forwarding. First, the backplane bandwidth 1. Switch backplane bandwidth meaning \n";
            " The backplane bandwidth of the switch, also called the backplane capacity, is the maximum amount of data that can be handled between the switch interface processor or the interface card and the data bus. The backplane bandwidth marks the total data exchange capacity of the switch, in Gbps. The backplane bandwidth of a typical switch ranges from a few Gbps to hundreds of Gbps. The higher the backplane bandwidth of a switch, the better the ability to process data, but at the same time the design cost will be higher. 2. The internal structure of the switch \n";
            " The utilization of backplane bandwidth resources is closely related to the internal structure of the switch. At present, the internal structure of the switch mainly has the following types: \n";
            " First, a shared memory structure, which relies on a central switching engine to provide a high-performance connection for a full port, and the core engine checks each input packet to determine a route. This method requires a large memory bandwidth and high management cost. Especially with the increase of the switch port, the price of the central memory will be very high, so the switch core becomes the bottleneck of performance realization; \n";
            " the second is the cross bus structure, which can Establish a direct point-to-point connection between ports, which is good for single-point transmission, but not suitable for multi-point transmission; \n";
            " the third is a hybrid cross-bus structure, which is a hybrid cross-bus implementation. Its design idea is to integrate The cross bus matrix is divided into small cross matrices connected by a high performance bus. The advantage is that the number of cross-buses is reduced, the cost is reduced, and bus contention is reduced; however, the bus connecting the cross-matrix becomes a new performance bottleneck. 3. Linear non-blocking transmission \n";
            " The best performance we can buy for the transfer machine is to require linear non-blocking transmission. How do we investigate whether the backplane bandwidth of a switch is sufficient? How to determine whether the design of the switch you bought is reasonable, and there is a blocking structure design? \n";
            " Calculation formula: \n";
            " A. The sum of the number of all port capacity X ports should be less than the backplane bandwidth, which can realize full-duplex non-blocking switching, which proves that the switch has the conditions of maximizing data exchange performance. \n";
            " B. Full configuration throughput (Mbps) = full configuration GE port number × 1.488 Mpps, wherein the theoretical throughput of a Gigabit port with a packet length of 64 bytes is 1.488 Mpps. For example, a switch with up to 64 Gigabit ports should have a full configuration throughput of 64 x 1.488 Mpps = 95.2 Mpps to ensure non-blocking packet switching when all port line speeds are working. Example: If a switch can provide up to 176 Gigabit ports and the declared throughput is less than 261.8 Mpps (176 x 1.488 Mpps = 261.8), then the user has reason to believe that the switch is designed with a blocking structure. \n";
            " For 10 Gigabit Ethernet, the packet forwarding rate of a wire-speed port is 14.88 Mpps. \n";
            " For Gigabit Ethernet, the packet forwarding rate of a wire-speed port is 1.488 Mpps. \n";
            " For Fast Ethernet, the packet forwarding rate of a wire-speed port is 0.1488 Mpps. \n";
            " For OC-12 POS ports, the packet forwarding rate of a line rate port is 1.17 Mpps. \n";
            " For the POS port of OC-48, the packet forwarding rate of one line-speed port is 468MppS. \n";
            " Therefore, if we can meet the above three conditions, then we say that this switch is truly linear and non-blocking; the back-up rate of the switch is generally: \n";
            " Mbps, which refers to the second layer, which is used for the exchange of more than three layers. \n";
            " Mpps 4. The backplane bandwidth does not exist in the switch with the fixed port. \n";
            " This concept is only possible with modular switches (with scalable slots that can flexibly change the number of ports). Fixed-port switches do not have this concept, and the backplane capacity and switching capacity of fixed-port switches are equal. The backplane bandwidth determines the maximum bandwidth for the connection between each board (including boards that are not yet installed in the expandable slot) and the switching engine. Due to the different architectures of modular switches, backplane bandwidth is not fully effective at representing the true performance of the switch. Fixed port switches do not have the concept of backplane bandwidth. Second, the exchange capacity \n";
            " It is the transmission capacity of the core CPU and bus, generally smaller than the backplane bandwidth. H3C low-end LSW switching uses the store-and-forward mode. The size of the switching capacity is determined by the bit width of the buffer (BUFFER) and its bus frequency. That is, the switching capacity = cache bit width * cache bus frequency = 96 * 133 = 12.8 Gbps H3C high-end switch exchange capacity can be equal to twice the total port capacity, total port capacity = 2 * (n * 100Mbps + m * 1000Mbps) ( n: indicates that the switch has n 100M ports, m: indicates that the switch has m 1000M ports. \n";
            " 3. The packet forwarding rate forwarding capability is measured by the minimum packet length. For the Ethernet minimum packet is 64BYTE, plus the frame overhead 20BYTE. Therefore, the minimum package is 84BYTE. For a full-duplex 1000Mbps interface to achieve line speed requirements: forwarding capacity = 1000Mbps / ((64 + 20) * 8bit) = 1.488Mpps for a full-duplex 100Mbps interface to achieve line speed requirements: forwarding capacity = 100Mbps / ((64+20)*8bit)=0.149Mpps Unit: Mpps (Million packets per second) This article is from the ";
            QQ;
            "Snow Moon Studio";
            QQ;
            " blog, please be sure to keep this source  http://xueyue8.blog.51cto.com/4650249/1765750   How is the backplane bandwidth, switching capacity, and packet forwarding rate of the switch calculated? For the manufacturers, the standard is higher than the line speed forwarding." ])));
      (sq "tags", EString (sq ""));
      (sq "url", EString (sq "Switch.html")) ].

Definition page_06 : Expr :=
  EObject
    [ (sq "title", EString (sq "Google"));
      (sq "text", EString (sq ""));
      (sq "tags", EString (sq ""));
      (sq "url", EString (sq "Google.html")) ].

Definition page_07 : Expr :=
  EObject
    [ (sq "title", EString (sq "Flask"));
      (sq "text", EString (sq "https://flask.palletsprojects.com/en/1.1.x/   \n"));
      (sq "tags", EString (sq ""));
      (sq "url", EString (sq "Flask.html")) ].

Definition page_08 : Expr :=
  EObject
    [ (sq "title", EString (sq "Oauth2"));
      (sq "text", EString (sq (cat
          [ "https://github.com/zquestz/omniauth-google-oauth2 \n";
            " https://github.com/thephpleague/oauth2-google" ])));
      (sq "tags", EString (sq ""));
      (sq "url", EString (sq "Oauth2.html")) ].

Definition page_09 : Expr :=
  EObject
    [ (sq "title", EString (sq "Calendar API"));
      (sq "text", EString (sq "https://github.com/kuzmoyev/google-calendar-simple-api \n"));
      (sq "tags", EString (sq ""));
      (sq "url", EString (sq "Calendar API.html")) ].

Definition page_10 : Expr :=
  EObject
    [ (sq "title", EString (sq "Drive API"));
      (sq "text", EString (sq "https://github.com/iterative/PyDrive2  "));
      (sq "tags", EString (sq ""));
      (sq "url", EString (sq "Drive API.html")) ].

Definition page_11 : Expr :=
  EObject
    [ (sq "title", EString (sq "Web Site"));
      (sq "text", EString (sq (cat
          [ "利用 Github 與 Gitlab 倉儲建立個人網頁 \n";
            " 何謂網際內容管理? \n";
            " Web-based Content Management \n";
            " Content? \n";
            " 3D 零組件 \n";
            " https://www.onshape.com \n";
            " 英文學習紀錄 \n";
            " 數學學習紀錄 \n";
            " 專業課程學習紀錄 \n";
            " Video \n";
            " https://github.com/ShareX/ShareX \n";
            " https://www.blender.org/ \n";
            " Audio \n";
            " https://www.audacityteam.org/ \n";
            " Images \n";
            " https://www.gimp.org/ \n";
            " https://inkscape.org/ \n";
            " Animation \n";
            " Github 是甚麼? \n";
            " Gitlab 又是甚麼? \n";
            " 自行在 Ubuntu 操作系統上安裝 Gitlab? \n";
            " Ubuntu 操作系統? \n";
            " 實體系統 \n";
            " 虛擬系統 \n";
            " Virtualbox" ])));
      (sq "tags", EString (sq ""));
      (sq "url", EString (sq "Web Site.html")) ].

Definition pages : list Expr :=
  [ page_00; page_01; page_02; page_03; page_04; page_05;
    page_06; page_07; page_08; page_09; page_10; page_11 ].

Definition tipuesearch : Expr :=
  EObject [ (dq "pages", EArray pages) ].

Definition script : Script :=
  [ SVar "tipuesearch" tipuesearch ].

End TipuesearchContentJs.

(** ** [unnamed/part_000]

    The second data file is again one statement
    [var tipuesearch = {"pages": [...]};], with nineteen page records.
    The bytes that follow the closing semicolon in this copy of the file
    are a document separator and no JavaScript; they are not part of the
    script. *)

Module Part000.

Definition page_00 : Expr :=
  EObject
    [ (sq "title", EString (sq "About"));
      (sq "text", EString (sq (cat
          [ "何謂網際內容管理? \n";
            " 在網際進行數位內容資料的管理 \n";
            " 何謂網際? \n";
            " Web-based \n";
            " 何謂 Web? \n";
            " World-Wide-Web \n";
            " client-browser, server-WWW server \n";
            " 何謂數位內容? \n";
            " 能夠以數位格式儲存的內容 \n";
            " text, equation, plot, images, audio, video, multi-media animation \n";
            " 何謂管理? \n";
            " 分門別類整理後便於保存, 查找, 分享數位內容 \n";
            " 管理的目的為何? \n";
            " 紀錄解決問題的過程, 期再次碰到類似問題時可以儘量重用內容 \n";
            " 為何大多數內容重用只能是儘量重用? \n";
            " 因為環境會變, 工具會變, 整體工作環境系統也會不斷改變 \n";
            " 執行網際內容管理需不需要寫程式? \n";
            " 不寫, 可以用其他人寫的工具與套件 \n";
            " 自己寫, 則可以依照自己或團隊的需求, 量身訂做自己需要的工具或管理系統 \n";
            " 分組專題: \n";
            " W3 自選組員, 6 人一組. \n";
            " W10 之後的專題題目自選, 並在  https://github.com/mdecourse/wcmj2021/discussions  進行討論 \n";
            " 評分: \n";
            " 出席 10% \n";
            " 個人倉儲與網頁 30% \n";
            " 每週網際簡報 html 與 Pdf 報告 60% (含 Youtube 操作影片) \n";
            " Repository template:  https://github.com/mdecourse/cmstemplate \n";
            " 電腦輔助設計室與協同設計室行事曆 \n";
            " 全頁檢視 \n" ])));
      (sq "tags", EString (sq ""));
      (sq "url", EString (sq "About.html")) ].

Definition page_01 : Expr :=
  EObject
    [ (sq "title", EString (sq "三道牆理論"));
      (sq "text", EString (sq (cat
          [ "KMOLab 所開設課程目的是將擋在機械工程師面前的三道牆, 直接利用課程講授的過程, 一一呈現, 讓大家有及時找出突破這三道障礙的機會, 不僅讓各自的潛能有所發揮, 同時也希望大家能更自在地面對未來的更多挑戰. 這三道牆分別是: \n";
            " 理論基礎障礙 實務練習障礙 確立目標障礙 \n";
            " 理論基礎障礙 \n";
            " 所謂的理論基礎障礙就是技職體系學生在高中階段經常疏忽的英文, 數學與邏輯思考與獲取學問的基本能力. 也就是英文聽說讀寫的基本能力, 數學基本能力與了解如何透過邏輯思考解題, 並且學習如何發問, 如何與人協同合作解決問題的能力. \n";
            " http://mde.tw/cad2020/content/W10-W14.html \n";
            " 實務練習障礙 \n";
            " 第二道牆則是實務練習障礙, 許多人不願意花時間在突破上述第一道障礙的原因, 通常是因為不知道學習這些相對抽象的知識有甚麼用處? 因此, 為了凸顯突破第一道牆的重要性, 就必須要透過實際的課程案例, 讓大家了解一旦能突破第一道牆的障礙後, 養成持續學習這些理論基礎內容之後, 就可以相對用比較有效率的方式解決各種問題. \n";
            " 但是這需要學習者付出時間與耐性, 當面對完全陌生議題時, 就必須檢討是否第一道牆仍然卡在自己與解決方案中間. 然後用心不斷思考, 探索與練習之後, 若還是無法解決問題. 就必須要先試著描述問題後再尋求他人的協助. \n";
            " 假如能有以上的正確學習態度, 就有機會在面對各種問題時, 持續突破前面的兩道牆, 然後看到自己所追求的第三道牆, 並且此後能夠竭盡全力, 翻閱第三道牆的障礙, 積極達成預定目標. \n";
            " http://mde.tw/cad2020/content/HW1.html \n";
            " http://mde.tw/cad2020/content/HW2.html \n";
            " http://mde.tw/cad2020/content/HW1_SW.html \n";
            " https://github.com/KmolYuan/Pyslvs-UI \n";
            " 確立目標障礙 \n";
            " 你的人生目標是甚麼? \n";
            " https://www.ptt.cc/bbs/Tech_Job/M.1588362728.A.14F.html  " ])));
      (sq "tags", EString (sq ""));
      (sq "url", EString (sq "三道牆理論.html")) ].

Definition page_02 : Expr :=
  EObject
    [ (sq "title", EString (sq "Blogger"));
      (sq "text", EString (sq (cat
          [ "網誌: \n";
            " https://www.blogger.com/ \n";
            " https://blog.getpelican.com/ \n";
            " 論壇: \n";
            " https://www.discourse.org/ \n";
            " https://jpme.eng.nfu.edu.tw \n";
            " https://forum.eng.nfu.edu.tw \n";
            " Blogger, Pelican 與 Discourse 內容能不能整合並同步? \n";
            " https://mdecourse.blogspot.com/2020/05/pelican-blogger_21.html \n";
            " https://meta.discourse.org/t/how-can-i-implement-a-blog-page-in-discourse-forum-software/48496/6 \n" ])));
      (sq "tags", EString (sq ""));
      (sq "url", EString (sq "Blogger.html")) ].

Definition page_03 : Expr :=
  EObject
    [ (sq "title", EString (sq "個人電腦"));
      (sq "text", EString (sq (cat
          [ "機械工程師由於必須在個人電腦上繪製並顯示 3D 零組件, 因此個人電腦通常需要配備獨立顯示卡, 其基本規格與電競機類似: \n";
            " https://www.crucial.tw/articles/for-gamers/the-best-specs-for-a-gaming-pc \n";
            " CPU ( Central Processing Unit ) - 中央處理器 \n";
            " Intel Processor:  https://en.wikipedia.org/wiki/List_of_Intel_processors \n";
            " AMD Processor:  https://en.wikipedia.org/wiki/List_of_AMD_processors \n";
            " ARM Architecture:  https://en.wikipedia.org/wiki/ARM_architecture \n";
            " Apple Designed Processor:\xa0 https://en.wikipedia.org/wiki/Apple-designed_processors  \u3000 \n";
            " FULL HD ( High Definition ) \n";
            " Motherboard  主機板 \n";
            " RAM ( Random-Access Memory ) \n";
            " DDR ( Double Data Rate ) \n";
            " 何謂 HDD/SSD? 有何差別? \n";
            " 何謂 RPM? \n";
            " 何謂 ATA、PATA、與 SATA 連接埠? 有何差別? \n";
            " 何謂 Video Card? \n";
            " 何謂 fps? \n";
            " 何謂 DVI? \n";
            " 何謂 HDMI? \n";
            " 何謂  LED ? \n";
            " 何謂 DirectX? \n";
            " 何謂  Watt ? \n";
            " 何謂  Power ? \n";
            " 何謂 Hz ( Hertz )? \n";
            " Computer Monitor \n";
            " 何謂 ppi?" ])));
      (sq "tags", EString (sq ""));
      (sq "url", EString (sq "個人電腦.html")) ].

Definition page_04 : Expr :=
  EObject
    [ (sq "title", EString (sq "Network"));
      (sq "text", EString (dq (cat
          [ "Understanding bandwidth Bandwidth refers to the data rate that is supported by the network connection or the interfaces that connect to the network. It represents both volume and time, representing the amount of data that can be transmitted between two points in a set period of time. It is usually expressed in terms of bits per second (bps), or sometimes in bytes per second (Bps). Network bandwidth represents the capacity of the network connection, though it's important to understand the distinction between theoretical throughput and real-world results when figuring out the right bandwidth formula for your network. For example, a 1000BASE-T -- which uses unshielded twisted-pair cables -- Gigabit Ethernet (GbE) network can theoretically support 1,000 megabits per second (Mbps), but this level can never really be achieved in practice because of hardware and systems software overhead. One point to consider when thinking about how to calculate bandwidth needs on your network is this: Bandwidth should not be confused with throughput, which refers to speed. While high-bandwidth networks are often fast, that is not always the case. A helpful metaphor when thinking about bandwidth is cars on a highway. A high-bandwidth network is like a six-lane highway that can fit hundreds of cars at any given moment. A low-bandwidth network is like a single-lane road in which one car queues directly behind another. Although the large highway is likely to move vehicles faster, rush-hour traffic can easily bring cars and trucks to a standstill. Or, perhaps, the cars cannot get onto the highway quickly because it's clogged with large delivery trucks that take up a lot of space on the road. Similarly, even a high-bandwidth network can run slowly in the face of problems, such as congestion and bandwidth-hungry applications. These very points make calculating bandwidth requirements a challenge, yet the consequences of getting the bandwidth formula wrong are considerable. If you don't procure enough bandwidth, you all but guarantee the network will run slowly. However, significantly overprovisioning bandwidth can be cost-prohibitive for most enterprises. So, how do you determine the right formula that will meet your bandwidth requirements? The process begins with asking the right questions: What applications are users running, and what is the performance service-level agreement for these applications? I know some network managers who are only concerned with how many users are on a virtual LAN. What you really need to know is what the users will be doing on the network. It's possible that 200 users will cause less of a bottleneck than a group of three users that really beats the heck out of the network because of some funky client-server application or extensive use of a bandwidth-heavy service, like high-definition video conferencing. \n";
            " \n";
            " 了解  https://www.wireshark.org  的用法, 並藉以提升網路頻寬的使用效能及安全. \n";
            " 近端下載 \n";
            " http://a.kmol.info:88/Wireshark-win64-3.4.2.exe" ])));
      (sq "tags", EString (sq ""));
      (sq "url", EString (sq "Network.html")) ].

Definition page_05 : Expr :=
  EObject
    [ (sq "title", EString (sq "Switch"));
      (sq "text", EString (sq (cat
          [ "Not all switches are created equal. \n";
            " 來源 \n";
            " https://www.cisco.com/c/en/us/products/switches/index.html#~products \n";
            " https://www.cisco.com/c/dam/en/us/products/collateral/switches/catalyst-9300-series-switches/nb-06-upgrading-cat-9300-fc-cte-en.pdf \n";
            " internally to a switch a specialized hardware is needed to move frames between ports. This specific part can be called backplane (背板) or in some cases we talk of switching fabric (交換結構). When the forwarding capabilities of a backplane or switching fabric are greater then the sum of speeds of all ports (counted twice one for tx and one rx direction) we call the switching fabric non blocking: traffic between a pair of ports is not influenced by what traffic is exchanged on all other ports. The forwarding rate is expressed in packet per seconds and expresses how many packets per second are needed to reach a certain traffic volume (throughpout) Clearly forwarding rate depends on frame size. Ideally a backplane switching fabric should be non blocking for every frame size including the smallest ones (64 bytes in ethernet standard) but in reality most devices can be non blocking for an average size of 400 bytes. bandwidth: the speed of traffic. to convert between forwarding rate and used bandwidth we need to take in account some specific aspects of ethernet: each frame has an 8 byte preamble that is used to allow to potential receiver to synchronize with the signal between two frames a minimum silence interval must exist to allow receiver to discriminate between two frames preamble and inter frame gap counts for 20,2 bytes. So given an iP packet of size N the ethernet frame has size N+18\xa0 (header 14 bytes, FCS 4 byte) but counts as (N+18+20,2)*8 on wire 8 is number of bits in a byte with this kind of calculation using frames of minimum size 64 bytes you need 1488000 frames per second and per direction to fill a GE port. Be also aware that all figures you see sum tx and rx directions so if a switch has 100 M pps capability this accounts for a certain number of GE ports at 1 Gbps full duplex. \n";
            " Do not confuse the speed of the stackwise ring with the internal switching fabric of each stack member, they are different: the internal switching fabric should be used for traffic between ports on the same stack member device, the stackwise bandwidth should be used when traffic must flow between ports located on different stack members. Note: this is just my assumption about the implementation of stack, it may be different with the dual ring involved also for traffic between two ports on the same member switch. (total lack of so called local switching capabilities). The stack implements a dual ring topology between the member switches that act as an extension of the individual switching fabrics. The speed of the ring for a stack of only 3750-X (stackwise plus) should be 32 Gbps full duplex that allows for a very good interconnection between member switches, but I agree it is not enough to classify the composite switching fabric as not blocking. On the other hand, only models with 10GE ports can be interconnected at comparable speeds. To make a comparison a C6500 equipped with Sup720 generation route processor provides up to 40 Gbps per slot to/from the switching fabric and some linecards are faster then that ( think of\xa0 WS-6708 or WS-6716 with 8 and 16 tengiga ports respectively). About the forwarding capacity in pps: for a 24 ports device is listed as 65.5 Mbps that accounts for 22 GE ports 1Gbps full duplex with 64 byte frames. \n";
            " An original series 3750 (or 3560) fabric is 32 Gbps.\xa0 This is different from the stack ring\'s ";
            QQ;
            "32 Gbps";
            QQ;
            " (which is really dual 8 Gbps, duplex). An original series 3750 (or 3560) internal fabric, in theory, is oversubscribed by more than 16 gig ports (i.e. the ";
            QQ;
            "G";
            QQ;
            " suffixed original models). The terms non-blocking and blocking, when examining switch fabric isn\'t just sufficient bandwidth capacity to forward all port bandwidths, it\'s whether the fabric\'s architecture will block, or not, forwarding of frames even if there\'s ";
            QQ;
            "sufficient";
            QQ;
            " bandwidth. For example, you have three ingress ports.\xa0 Two are sending to one egress port (2:1) and the other is sending to other egress port (1:1).\xa0 If 2:1 congestion on the one egress port delays (or blocks) transmission on the 1:1 egress port, you have HOL (head-of-line) blocking even though the internal fabric\'s bandwidth could support each ingress port sending to a separate egress port (all 1:1). StackWise (and StackWise+), when available, use both ring ports. Original StackWise copies ALL member switch traffic to the stack ring.\xa0 Original StackWise source stack member also removes the traffic it placed on the stack ring. StackWise Plus only places unicast traffic on the stack ring when destination is not a local switch port.\xa0 Additionally, destination switch member removes unicast packets.\xa0 (I.e. StackWise+ uses it\'s ring much more intelligently.\xa0 It also has dual 16 Gbps stack ring ports.\xa0 NB:StackWise+, for the most part, reverts to StackWise operation if there\'s a StackWise only member switch in the stack [good reason not to use such mixed stacks].) Bits per second, is the transmission rate supported by the media.\xa0 So, for example, 100 Mbps allows transmission of 100,000,000 bits per seconds.\xa0 However, transferring actual data, in something like physical segments (e.g. frames) uses some of this capacity for both framing overhead and framing delineation, so useful capacity is less than the often quoted bps rate.\xa0 Useful capacity percentage (of overall rate) also generally decreases as frame size decreases.\xa0 (BTW, similar issue with disk media.\xa0 At least disk capacity isn\'t, generally, quoted for its unformatted capacity any longer.) The 25 Mbps throughput is rated for minimum sized packets.\xa0 Larger packets often allow much higher throughput as the packets per second requirement (for same bandwidth) decreases.\xa0 (Sometimes the vendor will document PPS rates for multiple packet sizes.\xa0 Without such documentation, or your own testing, just knowing documented performance for one packet size you cannot accurately predict a device\'s performance for other packet sizes.) \n";
            " 來源 \n";
            " Switch backplane bandwidth, switching capacity, packet forwarding rate difference Backplane bandwidth refers to the entire switching capacity of the backplane, switching capacity refers to the switching capacity of the CPU, and packet forwarding refers to the capacity of the three-layer forwarding. First, the backplane bandwidth 1. Switch backplane bandwidth meaning \n";
            " The backplane bandwidth of the switch, also called the backplane capacity, is the maximum amount of data that can be handled between the switch interface processor or the interface card and the data bus. The backplane bandwidth marks the total data exchange capacity of the switch, in Gbps. The backplane bandwidth of a typical switch ranges from a few Gbps to hundreds of Gbps. The higher the backplane bandwidth of a switch, the better the ability to process data, but at the same time the design cost will be higher. 2. The internal structure of the switch \n";
            " The utilization of backplane bandwidth resources is closely related to the internal structure of the switch. At present, the internal structure of the switch mainly has the following types: \n";
            " First, a shared memory structure, which relies on a central switching engine to provide a high-performance connection for a full port, and the core engine checks each input packet to determine a route. This method requires a large memory bandwidth and high management cost. Especially with the increase of the switch port, the price of the central memory will be very high, so the switch core becomes the bottleneck of performance realization; \n";
            " the second is the cross bus structure, which can Establish a direct point-to-point connection between ports, which is good for single-point transmission, but not suitable for multi-point transmission; \n";
            " the third is a hybrid cross-bus structure, which is a hybrid cross-bus implementation. Its design idea is to integrate The cross bus matrix is divided into small cross matrices connected by a high performance bus. The advantage is that the number of cross-buses is reduced, the cost is reduced, and bus contention is reduced; however, the bus connecting the cross-matrix becomes a new performance bottleneck. 3. Linear non-blocking transmission \n";
            " The best performance we can buy for the transfer machine is to require linear non-blocking transmission. How do we investigate whether the backplane bandwidth of a switch is sufficient? How to determine whether the design of the switch you bought is reasonable, and there is a blocking structure design? \n";
            " Calculation formula: \n";
            " A. The sum of the number of all port capacity X ports should be less than the backplane bandwidth, which can realize full-duplex non-blocking switching, which proves that the switch has the conditions of maximizing data exchange performance. \n";
            " B. Full configuration throughput (Mbps) = full configuration GE port number × 1.488 Mpps, wherein the theoretical throughput of a Gigabit port with a packet length of 64 bytes is 1.488 Mpps. For example, a switch with up to 64 Gigabit ports should have a full configuration throughput of 64 x 1.488 Mpps = 95.2 Mpps to ensure non-blocking packet switching when all port line speeds are working. Example: If a switch can provide up to 176 Gigabit ports and the declared throughput is less than 261.8 Mpps (176 x 1.488 Mpps = 261.8), then the user has reason to believe that the switch is designed with a blocking structure. \n";
            " For 10 Gigabit Ethernet, the packet forwarding rate of a wire-speed port is 14.88 Mpps. \n";
            " For Gigabit Ethernet, the packet forwarding rate of a wire-speed port is 1.488 Mpps. \n";
            " For Fast Ethernet, the packet forwarding rate of a wire-speed port is 0.1488 Mpps. \n";
            " For OC-12 POS ports, the packet forwarding rate of a line rate port is 1.17 Mpps. \n";
            " For the POS port of OC-48, the packet forwarding rate of one line-speed port is 468MppS. \n";
            " Therefore, if we can meet the above three conditions, then we say that this switch is truly linear and non-blocking; the back-up rate of the switch is generally: \n";
            " Mbps, which refers to the second layer, which is used for the exchange of more than three layers. \n";
            " Mpps 4. The backplane bandwidth does not exist in the switch with the fixed port. \n";
            " This concept is only possible with modular switches (with scalable slots that can flexibly change the number of ports). Fixed-port switches do not have this concept, and the backplane capacity and switching capacity of fixed-port switches are equal. The backplane bandwidth determines the maximum bandwidth for the connection between each board (including boards that are not yet installed in the expandable slot) and the switching engine. Due to the different architectures of modular switches, backplane bandwidth is not fully effective at representing the true performance of the switch. Fixed port switches do not have the concept of backplane bandwidth. Second, the exchange capacity \n";
            " It is the transmission capacity of the core CPU and bus, generally smaller than the backplane bandwidth. H3C low-end LSW switching uses the store-and-forward mode. The size of the switching capacity is determined by the bit width of the buffer (BUFFER) and its bus frequency. That is, the switching capacity = cache bit width * cache bus frequency = 96 * 133 = 12.8 Gbps H3C high-end switch exchange capacity can be equal to twice the total port capacity, total port capacity = 2 * (n * 100Mbps + m * 1000Mbps) ( n: indicates that the switch has n 100M ports, m: indicates that the switch has m 1000M ports. \n";
            " 3. The packet forwarding rate forwarding capability is measured by the minimum packet length. For the Ethernet minimum packet is 64BYTE, plus the frame overhead 20BYTE. Therefore, the minimum package is 84BYTE. For a full-duplex 1000Mbps interface to achieve line speed requirements: forwarding capacity = 1000Mbps / ((64 + 20) * 8bit) = 1.488Mpps for a full-duplex 100Mbps interface to achieve line speed requirements: forwarding capacity = 100Mbps / ((64+20)*8bit)=0.149Mpps Unit: Mpps (Million packets per second) This article is from the ";
            QQ;
            "Snow Moon Studio";
            QQ;
            " blog, please be sure to keep this source  http://xueyue8.blog.51cto.com/4650249/1765750   How is the backplane bandwidth, switching capacity, and packet forwarding rate of the switch calculated? For the manufacturers, the standard is higher than the line speed forwarding." ])));
      (sq "tags", EString (sq ""));
      (sq "url", EString (sq "Switch.html")) ].

Definition page_06 : Expr :=
  EObject
    [ (sq "title", EString (sq "Topics"));
      (sq "text", EString (sq (cat
          [ "個人電腦軟體與硬體基本概念 \n";
            " 網路基本概念與設定 \n";
            " Windows 10 64 位元隨身程式系統 \n";
            " http://mde.tw \n";
            " cmsimde \n";
            " blogger \n";
            " Github \n";
            " Fossil SCM \n";
            " http://fossil.kmol.info \n";
            " http://mde.tw/fosgit \n";
            " http://fossil.kmol.info/fosgit/doc/trunk/index.html \n";
            " https://fossil.kmol.info/fosgit/doc/0f7bf53ab9/content/index.html   \n";
            " http://jpme.eng.nfu.edu.tw \n" ])));
      (sq "tags", EString (sq ""));
      (sq "url", EString (sq "Topics.html")) ].

Definition page_07 : Expr :=
  EObject
    [ (sq "title", EString (sq "Topic 1"));
      (sq "text", EString (sq (cat
          [ "計算機概論課程回顧 \n";
            " 首先必須先了解電腦輔助設計室中的網路設定: \n";
            " 由於上課時各電腦採用純 IPv6 協定上網, 因此可以將 IPv4 網路協定勾選移除, 且以 DHCP6 取得 2001:288:6004:17:xxxx 格式的 IPv6 網路位址, 惟需自行設定 DNS 伺服器. 可以選擇機械設計工程系的 DNS 伺服器 2001:288:6004:17::3 或中華電信 DNS 伺服器 2001:b000:168::1 \n";
            " \n";
            " 接著學習如何利用可攜式 ShareX 錄製電腦操作畫面流程, 存為 mp4 格式後上傳到 @gm 帳號對應的 Youtube. 本課程建議各學員將每週根據課程進度所操作的流程錄製成 mp4 影片嵌入個人的網誌與網頁中. \n";
            " \n";
            " 接著學習如何利用 @gm 帳號建立分組 Blogger. 完成後各分組的網誌連結如下: \n";
            " https://wcmj2021g1.blogspot.com \n";
            " https://wcmj2021g2.blogspot.com \n";
            " https://wcmj2021g3.blogspot.com \n";
            " https://wcmj2021g4.blogspot.com \n";
            " https://wcmj2021g5.blogspot.com \n";
            " https://wcmj2021g6.blogspot.com \n";
            " https://wcmj2021g7.blogspot.com \n";
            " \n";
            " 各組組長完成分組 Blogger 網誌建立後, 可利用設定選項將各組員設為可在分組網誌發佈文章的協同管理者或協同作者. \n";
            " \n";
            " 接著學習如何透過 Youtube 影片中分享功能中的嵌入選擇取得特定影片的 iframe 嵌入 html 後, 可將各組員所製作的電腦操作影片嵌入個人網站或分組網誌中. \n";
            " \n";
            " 每一位學員登入學校配發的 Gmail 帳號後, 至  https://www.blogger.com  建立一個網誌, 並將上學期計算機課程的內容摘要整理為  Blogger  網誌內容. 可以按照每一週的教學內容整理為網誌, 或者根據教學主題內容整理為網誌內容. \n";
            " 請問: \n";
            " 已知  修課學員名單  ( nfulist 程式碼 ) ( 從教務主機查詢資料 ) 可以取得修課學員名單, 是否可以用於取得各學員的個人  Blogger  連結? \n";
            " 採人工方式啟動 Ethercalc 網際表單, 從修課學員名單中複製學號行資料, 然後在  https://gitter.im/mdecourse/wcmj2021  公佈網際表單連結, 讓各學員依照學號填入個人 Blogger 網誌連結後, 再複製資料, 並設法轉為 HTML Anchor 連結. \n";
            " 上述流程能不能採更方便的流程進行 (減少人工複製與處理可能產生的錯誤)? \n";
            " http://mde.tw/cad2020/content/Ethercalc.html \n";
            " https://github.com/audreyt/ethercalc/blob/master/API.md \n";
            " https://pypi.org/project/ethercalc-python/ \n";
            " http://mde.tw/cd2021/content/Topics.html \n";
            " Blogger API  能夠做甚麼? \n";
            " 相關技術: \n";
            " Python  - 會編寫基本的 Python 程式 \n";
            " http://mde.tw/cp2020 \n";
            " HTML  - 了解超文件相關標註用法 \n";
            " Jascript  - 了解 Javascript 如何與 HTML 結合應用? \n";
            " Flask  - 了解如何使用 Flask 網際框架? \n";
            " bs4  - 了解如何透過 Python 的 beautifulsoup 模組解讀 HTML 取用網頁上的相關資料? \n";
            " AJAX  - 了解 AJAX 如何運作? 如何應用? \n";
            " Heroku  - 了解如何將網際程式部署到 Heroku 雲端系統? \n";
            " http://mde.tw/cp2020/content/Heroku.html \n";
            " http://mde.tw/cp2020/content/scissor-rock-paper.html \n";
            " 應該要如何將選課學員的個人  Blogger  網誌連結整理 (嵌入)在這個頁面? \n";
            " 2010_Beginning Google Blogger.pdf \n";
            " 網際內容管理課程目標: \n";
            " 精密機械設計工程師可以利用具版次與歷程管理系統, 長期記錄學習與研究結果. \n";
            " 利用網際流程展示產品設計或製造流程 \n";
            " http://mde.tw/virtualkossel/   \n";
            " 背景知識: \n";
            " \xa0英文閱讀能力重不重要? \n";
            " 何謂  World Wide Web ? ( 全球資訊網 , 又稱為萬維網) \n";
            " 為什麼  https://zh.wikipedia.org/wiki/%E4%B8%87%E7%BB%B4%E7%BD%91  其實就是 https://zh.wikipedia.org/wiki/萬維網 \n";
            " html 與 WWW 的關係為何？ \n";
            " 為什麼在上列中文版的萬維網說明頁面, 會被標註";
            QQ;
            "此條目翻譯品質不佳";
            QQ;
            "? 英文說明頁為何沒有這樣的問題? \n";
            " 電腦軟硬體應用能力重不重要? \n";
            " 要將各學員的  Blogger  網誌連結放入這個頁面, 除了手動一一 key in 編輯外, 還有沒有其他較有效率的做法? \n";
            " 用  https://ethercalc.net/  按照學號次序取得各學員的  Blogger  網誌連結後, 存成檔案, 然後再編寫程式讀取各學員的網誌連結後, 建立所需的 html 超文件格式內容後, 直接差異本頁面特定位置後存檔. \n";
            " 將本網誌設定為可公開編輯的動態網頁模式, 讓各學員自行登入將網誌連結輸入後, 以";
            QQ;
            "協同編輯模式";
            QQ;
            "存檔後進行檢查與整理. (此一方案所得到的結果, 與上列其他方法比較有何優點或缺點?) \n";
            " 還有沒有其他更有效率的做法? \n";
            " 議題討論: \n";
            " 假如一位精密機械工程師只能接收中文資料, 面對";
            QQ;
            "翻譯品質不佳";
            QQ;
            "的萬維網";
            QQ;
            "說明內容, 是否應該有因應對策? \n";
            " KMOLab 鼓勵年輕人儘快翻越橫在面前的 三面牆理論 . \n";
            " 假如想要利用程式方法解決電腦軟硬體應用過程所碰到的問題? 該具備哪些基本條件? \n";
            " 你對電腦與網路的軟硬體配置及應用有多少了解? \n";
            " 你是否具備基本的英文閱讀能力? 你能夠不看鍵盤進行英文與中文打字嗎? 我應該要學習哪一種或哪幾種中文輸入法? 或者此後完全使用語音轉文字的方式輸入? \n";
            " 截至目前只上過計算機概論, 而且下學期才上計算機程式, 我們有能力現在就開始學習如何寫電腦程式嗎? \n";
            " 電腦與網路軟硬體是現代人生活中不可或缺的工具, 只要確認數位方法能夠有效解決問題, 任何人都可以在任一時間點設法透過客製化的軟硬體方案 (自行編寫或修改既有方案) 解決所面臨的問題. \n";
            " 了解 Windows 10 64 位元基本操作方式 \n";
            " 自行在 Windows 10 64 位元中建立可攜程式環境 (Why?) \n";
            " 自行在 Windows 10 64 位元環境中建立 Ubuntu 虛擬 Virtualbox 主機, 或者透過  WSL  了解 Linux 系統應用方法. \n" ])));
      (sq "tags", EString (sq ""));
      (sq "url", EString (sq "Topic 1.html")) ].

Definition page_08 : Expr :=
  EObject
    [ (sq "title", EString (sq "W2-W3"));
      (sq "text", EString (sq (cat
          [ "說明與機械設計工程系綜一館八樓電腦輔助設計室電腦網路設定有關的步驟 \n";
            " \n";
            " demo 如何利用 git 將遠端  https://github.com/mdecourse/wcmj2021  倉儲 git clone --recurse-submodules URL 到近端後, 利用 Python 啟動 cmsimde 網際內容管理系統的動態網站, 加入第三階的 W2 頁面後, 將上一個影片嵌入後, 以 git add, commit 及 push 把改版的內容新增提交推送至 Github 倉儲, 得到改版後的  http://mde.tw/wcmj2021/content/W2.html \n";
            " \n";
            " 說明如何從  http://a.kmol.info:88  下載可攜程式系統 kmol2021_spring_v3.7z, 利用  https://www.7-zip.org  解開壓縮後, 即可用 start_ipv6.bat 啟動系統, 並示範如何執行 Python 程式. \n";
            " \n";
            " 說明如何利用  https://github.com/mdecourse/cmstemplate  建立自己的 帳號.github.io 網站 \n" ])));
      (sq "tags", EString (sq ""));
      (sq "url", EString (sq "W2-W3.html")) ].

Definition page_09 : Expr :=
  EObject
    [ (sq "title", EString (sq "W4"));
      (sq "text", EString (sq (cat
          [ "截至目前為止, 我們已經介紹如何利用學校所配發的 @gm 電子郵件帳號建立在  https://www.blogger.com  的 個人網誌 以及 分組網誌 , 也說明如何在  https://github.com/  利用  帳號.github.io  倉儲建立 個人網站 , 接下來將以每組六人為一個單位進行網際內容的閱讀以及整理, 以下為第九週期中考之前, 希望各組完成閱讀, 討論並整理的相關內容: \n";
            " \n";
            " 與計算機概論與電腦網路有關的內容整理 -  Intro to computer1 ,  2 ,  computer networks , ( ntu ee course ) \n";
            " 與 Google 發展有關的內容整理 - 有關 Google 的發展歷史:  https://en.wikipedia.org/wiki/Google , 請各組組員仔細閱讀這份資料後, 將認為重點的資料放入各學員的 blogger 網誌以及個人網站中. \n";
            " https://developers.google.com/blogger \xa0 \n";
            " \n";
            " 說明如何在 Github 帳號下利用 ";
            QQ;
            "帳號.github.io";
            QQ;
            " 倉儲建立網頁. 基本的建置流程為: \n";
            " \n";
            " 登入 Github 帳號 \n";
            " 連線至  https://github.com/mdecourse/cmstemplate  後點擊 Use this template, 以此倉儲內容作為樣板, 所建立的倉儲即可透過 Github Pages 的架構, 產生對應的個人網頁 \n";
            " 假如再使用 Brython 可以在網頁中建立一個基本的網際 Python 練習頁面 \n";
            " \n";
            " \n";
            " W10-W18 \n";
            " \n";
            " 網際內容管理應用 I -  Brython ,  Glowsript \n";
            " 網際內容管理應用 II -  Fossil SCM \n";
            " 進展中的網際與數位未來 - 一張 六千九百萬美元的數位圖檔 ,  What is Blockchain? ,  區塊鏈專題報告 ,  應用範例 ,  中國區塊練產業白皮書 ,  Build Your Own Blockchain \n" ])));
      (sq "tags", EString (sq ""));
      (sq "url", EString (sq "W4.html")) ].

Definition page_10 : Expr :=
  EObject
    [ (sq "title", EString (sq "Python"));
      (sq "text", EString (sq (cat
          [ "Python 語法 \n";
            " 由於 Github Pages 不允許伺服 __init__.py 檔案, 因此下列範例中需要導入 ggame 的部分, 將無法在 Github Pages 網站中執行. \n";
            " Python 3 官方教材:  https://docs.python.org/3/index.html \n";
            " Python tutorial:  https://docs.python.org/3/tutorial/index.html  (英文) \n";
            " Python 教學:  https://python-doc-tw.github.io/tutorial/index.html \n";
            " 網頁上的 Python - Brython:  https://www.brython.info/static_doc/en/intro.html  (解譯式) \n";
            " 網頁上的 Python GUI- Flexx:  https://flexx.readthedocs.io/en/stable/  (轉譯式) \n";
            " 開放電子書: \n";
            " Python 教程  (中文) \n";
            " Python 入門指南  (中文) \n";
            " how-to-code-in-python.pdf  (英文) \n";
            " https://www.py4e.com/book.php  (英文與小部分完成中文翻譯) \n";
            " \n";
            " \n";
            " \n";
            "  for ggame  \n";
            " \n";
            " \n";
            " \n";
            " \n";
            " \n";
            "  Cango 程式庫  \n";
            " \n";
            " \n";
            " \n";
            "  for Konva 程式庫  \n";
            " \n";
            " \n";
            " \n";
            "  導入 FileSaver 與 filereader  \n";
            " \n";
            " \n";
            " \n";
            " \n";
            "  導入 ace  \n";
            " \n";
            " \n";
            " \n";
            " \n";
            " \n";
            " \n";
            "  請注意, 這裡使用 Javascript 將 localStorage[";
            QQ;
            "py_src";
            QQ;
            "] 中存在近端瀏覽器的程式碼, 由使用者決定存檔名稱 \n";
            " \n";
            " \n";
            " \n";
            " 開始練習 print() 用法, 並著手建立函式 \n";
            "  印出版次與關鍵字程式  \n";
            " \n";
            " \n";
            " \n";
            "  用來顯示程式碼的 editor 區域  \n";
            " \n";
            "  以下的表單與按鈕與前面的 Javascript doSave 函式以及 FileSaver.min.js 互相配合  \n";
            " Filename:  .py   \n";
            " Run   Output   清除輸出區 清除繪圖區 Reload \n";
            " \n";
            " \n";
            " \n";
            "  ****************************** keyword start  \n";
            " \n";
            " \n";
            "  ****************************** keyword end  \n";
            "  ***************************** slide ex1 start  \n";
            " \n";
            " \n";
            " \n";
            "  ***************************** slide ex1 end  \n";
            "  ***************************** slide ex2 start  \n";
            " \n";
            " \n";
            " \n";
            "  ***************************** slide ex2 end  \n";
            "  ***************************** slide ex3 start  \n";
            " \n";
            " \n";
            " \n";
            "  ***************************** slide ex3 end  \n";
            "  ***************************** slide ex4 start  \n";
            " \n";
            " \n";
            " \n";
            "  ***************************** slide ex4 end  \n";
            "  line drawing start  \n";
            " \n";
            " \n";
            " \n";
            "  line drawing ends  \n";
            " \n";
            "  flag ex start  \n";
            " \n";
            " \n";
            " \n";
            "  flag ex ends  \n";
            " \n";
            "  bunny start  \n";
            " \n";
            " \n";
            " \n";
            "  bunny ends  \n";
            " \n";
            "  clear canvas start  \n";
            " \n";
            " \n";
            " \n";
            "  clear canvas ends  \n";
            " \n";
            "  cango spur gears start  \n";
            " \n";
            " \n";
            " \n";
            "  cango spur gears ends  \n";
            " \n";
            "  temp convert start  \n";
            " \n";
            " \n";
            " \n";
            "  temp convert ends  \n";
            " \n";
            "  forloop start  \n";
            " \n";
            " \n";
            " \n";
            "  forloop ends  \n";
            " \n";
            "  guess start  \n";
            " \n";
            " \n";
            " \n";
            "  guess ends  \n";
            " \n";
            "  autoguess start  \n";
            " \n";
            " \n";
            " \n";
            "  autoguess ends  \n";
            " \n";
            "  lottery start  \n";
            " \n";
            " \n";
            " \n";
            "  lottery ends  \n";
            " \n";
            "  台灣威力彩 start  \n";
            " \n";
            " \n";
            " \n";
            "  台灣威力彩 ends  \n";
            " \n";
            "  bezier starts  \n";
            " \n";
            " \n";
            " \n";
            "  bezier ends  \n";
            " \n";
            "  turtle1 starts  \n";
            " \n";
            " \n";
            " \n";
            "  turtle1 ends  \n";
            " \n";
            "  turtle2 starts  \n";
            " \n";
            " \n";
            " \n";
            "  turtle2 ends  \n";
            " \n";
            "  turtle3 starts  \n";
            " \n";
            " \n";
            " \n";
            "  turtle3 ends  \n";
            " \n";
            "  turtle4 starts  \n";
            " \n";
            " \n";
            " \n";
            "  turtle4 ends  \n";
            " \n";
            "  turtle5 starts  \n";
            " \n";
            " \n";
            " \n";
            "  turtle5 ends  \n";
            " \n";
            "  turtle6 starts  \n";
            " \n";
            " \n";
            " \n";
            "  turtle6 ends  \n";
            " \n";
            "  turtle7 starts  \n";
            " \n";
            " \n";
            " \n";
            "  turtle7 ends  \n";
            " \n";
            "  turtle8 starts  \n";
            " \n";
            " \n";
            " \n";
            "  turtle8 ends  \n";
            " \n";
            "  konva1 starts  \n";
            " \n";
            " \n";
            " \n";
            "  konva1 ends  \n";
            " \n";
            "  ycqsort starts  \n";
            " \n";
            " \n";
            " \n";
            "  ycqsort ends  \n";
            " \n";
            "  ball starts  \n";
            " \n";
            " \n";
            " \n";
            "  ball ends  \n";
            "  ****************************** bubble sort start  \n";
            " \n";
            " \n";
            "  ****************************** bubble sort end  \n";
            " Keyword Bubble Sort Ex1 Ex2 Ex3 Ex4 Ex5 Guess Autoguess 大樂透 威力彩 Temp Draw Flag Bezier Turtle1 Turtle2 Turtle3 Turtle4 Turtle5 Turtle6 Turtle7 Turtle8 Konva1 Bunny Ball Spur Ycqsort Clear \n";
            " 參考資料: \n";
            " turtle_intro.pdf \n";
            " turtle_intro2.pdf \n";
            " 其他擷取程式的方式:  http://mde.tw/2017springvcp/blog/web-based-python.html \n";
            " Qt for Python \n";
            " https://www.qt.io/qt-for-python \n";
            " https://build-system.fman.io/python-qt-tutorial \n";
            " https://build-system.fman.io/pyqt-exe-creation/ \n";
            " https://github.com/mherrmann/fbs-tutorial \n";
            " https://www.ics.com/blog/we-ported-qt-app-c-python-heres-what-happened \n";
            " QML 與 Flutter \n";
            " https://paulhammant.com/2016/11/15/qmls-squandered-opportunity/ \xa0中所提到 QML 的弱點在於將 .qml 與 .c++ 或 .py\xa0 分開的問題, Google 總算在 Flutter 適度解決了此一瓶頸. \n";
            " 但是 QML 加上 Qt for Python 仍不失為一個好了 Desktop GUI 開發框架. \n";
            " \n";
            " \n";
            " \n";
            " \n";
            " \n";
            " \n" ])));
      (sq "tags", EString (sq ""));
      (sq "url", EString (sq "Python.html")) ].

Definition page_11 : Expr :=
  EObject
    [ (sq "title", EString (sq "W5"));
      (sq "text", EString (sq (cat
          [ "網際內容管理的使用建議: \n";
            " \n";
            " 在雲端上只存放與個人或團隊專業有關的內容 (以學號作為 identity, 除了  Linkedin  外, 不要使用本名) \n";
            " 不要將個人生活有關的圖文放到網際空間 (不要使用臉書, 不要使用其他任何雲端社群服務擺放任何個人資料) \n";
            " 儘量使用瀏覽器查找資料, 每次使用後要刪除暫存檔, 避免使用手機上綁定實名制的 Apps \n";
            " \n";
            " 這個禮拜開始至 W9, 各小組要將 W1-W4 的教學影片加以整理, 讓每位組員都能在 Blogger 整理自己過去一個多學期的課程學習內容, 以網際內容管理架構, 可攜程式系統及 Github 倉儲與網頁的模式存放內容. \n";
            " 網際內容管理學習 Check List: \n";
            " \n";
            " 是否已經建立個人 Blogger? \n";
            " 是否會使用 Blogger, 新增協同著作者? \n";
            " 是否會在 Blogger 中使用各種 HTML 標註, 包括加入 Python 程式碼, 嵌入影片檔案等? \n";
            " 是否會利用  https://github.com/mdecourse/cmstemplate  建立個人網頁? \n";
            " 是否會在個人網站上嵌入網際 Python ( Brython ) 程式環境? \n";
            " 是否已經了解所謂的 Bubble Sort Python 程式? \n";
            " 是否已經會使用 SSH 將改版資料 push 到 Github? \n";
            " 各組是否已經找到想要研究的網際內容管理相關的分組專案題目? \n";
            " \n";
            " 2008_Organizing and Managing Personal Electronic Files- A Mechanical Engineer’s Perspective.pdf \n";
            " how-to-code-in-python.pdf \n";
            " 2018_中國區塊鍊產業白皮書.pdf \n";
            " 2019-08專題報告-區塊鏈plus時代的社經變革與創新思維.pdf \n";
            " 2020年中小企業白皮書(全)_v1.pdf \n";
            " 創意台灣 2020 政策白皮書.pdf \n";
            " Blockchain_for_dummies.pdf \n";
            " ComputerNetworks_936_pages.pdf \n";
            " 2030 台灣科技願景: \n";
            " taiwan_2030_tech_vision.pdf" ])));
      (sq "tags", EString (sq ""));
      (sq "url", EString (sq "W5.html")) ].

Definition page_12 : Expr :=
  EObject
    [ (sq "title", EString (sq "Topic2"));
      (sq "text", EString (sq (cat
          [ "學校與系上所提供的軟體套件安裝介紹 \n";
            " Windows 10 \n";
            " 校園軟體 \n";
            " 設計與分析套件: \n";
            " 輔助工具 \n";
            " 校園下載 以下連結必須在校園網路、使用學校代理主機或 vpn 模式下才可下載 AutoDesk PDSU  (Product Design Suite Ultimate edition) 包含: Autodesk Inventor Professional AutoCAD Mechanical AutoCAD Electrical AutoCAD Navisworks Simulate AutoCAD Raster Design Autodesk Recap Autodesk Vault Basic Autodesk Fusion 360 Navisworks Manage AutoDesk 安裝教學.pdf 官方網站下載  希望在任何地方使用,可以從  https://www.autodesk.com/education/free-software/inventor-professional  , 以 @gm 電子郵箱登錄且認證後下載, 取得三年免費使用授權. 允許同時安裝在筆電與桌上型電腦共兩套. 建議安裝流程 利用學校配發的電子郵箱, 連結至  https://www.autodesk.com/education/free-software/inventor-professional  , 登記帳號, 驗證 email 後, 取得 AutoDesk Inventor Professional 版本 2019 的 Serial Number 後, 從學校網站中下載  AutoDesk PDSU , 安裝後, 利用前述所取得的序號啟動 AutoDesk Inventor Professional 2019, 之後就可以在任何地方上網使用. \n";
            " 只要是校內 IP 就可以下載, 無需使用 vpn. https://software.nfu.edu.tw/Developer/Visual%20Studio/tw/Visual_Studio_Pro_2019.zip   https://software.nfu.edu.tw/Developer/Visual%20Studio/tw/Visual_Studio_Pro_2017.zip   https://software.nfu.edu.tw/Developer/Visual%20Studio/tw/Visual_Studio_Pro_2015.zip   https://software.nfu.edu.tw/Developer/Visual%20Studio/en/Visual_Studio_Pro_2015.zip   https://software.nfu.edu.tw/Windows/tw/Win10_1909_64BIT_CH.ISO https://software.nfu.edu.tw/KMS/windows_kms.bat   https://software.nfu.edu.tw/Office/tw/Office_Pro_Plus_2016_64Ch.iso https://software.nfu.edu.tw/KMS/Office_2016_KMS.bat \n";
            " https://software.nfu.edu.tw/Autodesk/autodesk.iso   https://software.nfu.edu.tw/files/AUTODESK%E5%AE%89%E8%A3%9D%E6%95%99%E5%AD%B8.pdf   2001:288:6004:1::115" ])));
      (sq "tags", EString (sq ""));
      (sq "url", EString (sq "Topic2.html")) ].

Definition page_13 : Expr :=
  EObject
    [ (sq "title", EString (sq "Google"));
      (sq "text", EString (sq "有關 Google 的發展歷史:  https://en.wikipedia.org/wiki/Google  請各組仔細閱讀這份資料後, 將認為重點的資料放入各學員的 blogger 網誌以及個人網站中."));
      (sq "tags", EString (sq ""));
      (sq "url", EString (sq "Google.html")) ].

Definition page_14 : Expr :=
  EObject
    [ (sq "title", EString (sq "Flask"));
      (sq "text", EString (sq "https://flask.palletsprojects.com/en/1.1.x/   \n"));
      (sq "tags", EString (sq ""));
      (sq "url", EString (sq "Flask.html")) ].

Definition page_15 : Expr :=
  EObject
    [ (sq "title", EString (sq "Oauth2"));
      (sq "text", EString (sq (cat
          [ "https://github.com/zquestz/omniauth-google-oauth2 \n";
            " https://github.com/thephpleague/oauth2-google" ])));
      (sq "tags", EString (sq ""));
      (sq "url", EString (sq "Oauth2.html")) ].

Definition page_16 : Expr :=
  EObject
    [ (sq "title", EString (sq "Calendar API"));
      (sq "text", EString (sq "https://github.com/kuzmoyev/google-calendar-simple-api \n"));
      (sq "tags", EString (sq ""));
      (sq "url", EString (sq "Calendar API.html")) ].

Definition page_17 : Expr :=
  EObject
    [ (sq "title", EString (sq "Drive API"));
      (sq "text", EString (sq "https://github.com/iterative/PyDrive2  "));
      (sq "tags", EString (sq ""));
      (sq "url", EString (sq "Drive API.html")) ].

Definition page_18 : Expr :=
  EObject
    [ (sq "title", EString (sq "Web Site"));
      (sq "text", EString (sq (cat
          [ "利用 Github 與 Gitlab 倉儲建立個人網頁 \n";
            " 何謂網際內容管理? \n";
            " Web-based Content Management \n";
            " Content? \n";
            " 3D 零組件 \n";
            " https://www.onshape.com \n";
            " 英文學習紀錄 \n";
            " 數學學習紀錄 \n";
            " 專業課程學習紀錄 \n";
            " Video \n";
            " https://github.com/ShareX/ShareX \n";
            " https://www.blender.org/ \n";
            " Audio \n";
            " https://www.audacityteam.org/ \n";
            " Images \n";
            " https://www.gimp.org/ \n";
            " https://inkscape.org/ \n";
            " Animation \n";
            " Github 是甚麼? \n";
            " Gitlab 又是甚麼? \n";
            " 自行在 Ubuntu 操作系統上安裝 Gitlab? \n";
            " Ubuntu 操作系統? \n";
            " 實體系統 \n";
            " 虛擬系統 \n";
            " Virtualbox" ])));
      (sq "tags", EString (sq ""));
      (sq "url", EString (sq "Web Site.html")) ].

Definition pages : list Expr :=
  [ page_00; page_01; page_02; page_03; page_04; page_05;
    page_06; page_07; page_08; page_09; page_10; page_11;
    page_12; page_13; page_14; page_15; page_16; page_17;
    page_18 ].

Definition tipuesearch : Expr :=
  EObject [ (dq "pages", EArray pages) ].

Definition script : Script :=
  [ SVar "tipuesearch" tipuesearch ].

End Part000.

(** * The schema of the payload *)

Definition data_files : list Script :=
  [ TipuesearchContentJs.script; Part000.script ].

(** The value the global [tipuesearch] holds once the file has run in a
    fresh global environment. *)
Definition tipuesearch_of (p : Script) : option Value :=
  match run p [] with
  | Some env => Assoc.get "tipuesearch" env
  | None => None
  end.

(** The sequence a consumer reads as [tipuesearch.pages]. *)
Definition pages_of (p : Script) : option (list Value) :=
  match tipuesearch_of p with
  | Some v =>
      match own_property v "pages" with
      | Some (VArray rs) => Some rs
      | _ => None
      end
  | None => None
  end.

(** A string-valued own property of a record. *)
Definition field (k : string) (r : Value) : option string :=
  match own_property r k with
  | Some (VString s) => Some s
  | _ => None
  end.

Definition page_fields : list string := [ "title"; "text"; "tags"; "url" ].

(** The shape of a page record: an object whose own keys are the four
    field names, each one holding a value that is neither [null] nor
    [undefined] and whose type is string. *)
Definition page_record (r : Value) : Prop :=
  exists props,
    r = VObject props /\
    Assoc.keys props = page_fields /\
    forall k, In k page_fields ->
      exists v, own_property r k = Some v /\
                v <> VNull /\ v <> VUndefined /\ typeof v = "string".

(** Relative links.  A scheme is a letter followed by letters, digits,
    [+], [-] or [.], and it ends at the first colon; an absolute path
    starts with a slash. *)
Definition is_alpha (c : ascii) : bool :=
  let n := N_of_ascii c in
  (N.leb 65 n && N.leb n 90) || (N.leb 97 n && N.leb n 122).

Definition is_digit (c : ascii) : bool :=
  let n := N_of_ascii c in N.leb 48 n && N.leb n 57.

Definition is_scheme_char (c : ascii) : bool :=
  is_alpha c || is_digit c
  || Ascii.eqb c "+" || Ascii.eqb c "-" || Ascii.eqb c ".".

Definition scheme_name (s : string) : Prop :=
  match s with
  | EmptyString => False
  | String c s' =>
      is_alpha c = true /\
      Forall (fun c' => is_scheme_char c' = true) (list_ascii_of_string s')
  end.

Definition has_scheme (s : string) : Prop :=
  exists name rest, scheme_name name /\ s = name ++ ":" ++ rest.

Definition absolute_path (s : string) : Prop :=
  exists rest, s = String "/" rest.

Definition relative_path (s : string) : Prop :=
  ~ has_scheme s /\ ~ absolute_path s.

Definition ends_with (suffix s : string) : Prop :=
  exists stem, s = stem ++ suffix.

(** ** Decision procedures used to check the records *)

Definition is_string (v : Value) : bool :=
  match v with
  | VString _ => true
  | _ => false
  end.

Definition page_record_b (r : Value) : bool :=
  match r with
  | VObject props =>
      if list_eq_dec string_dec (Assoc.keys props) page_fields
      then forallb (fun kv => is_string (snd kv)) props
      else false
  | _ => false
  end.

Fixpoint has_char (c : ascii) (s : string) : bool :=
  match s with
  | EmptyString => false
  | String c' s' => Ascii.eqb c c' || has_char c s'
  end.

Definition starts_with_char (c : ascii) (s : string) : bool :=
  match s with
  | EmptyString => false
  | String c' _ => Ascii.eqb c c'
  end.

Fixpoint has_suffix (suffix s : string) : bool :=
  String.eqb s suffix
  || match s with
     | EmptyString => false
     | String _ s' => has_suffix suffix s'
     end.

Definition relative_html_b (u : string) : bool :=
  negb (has_char ":" u) && negb (starts_with_char "/" u)
  && has_suffix ".html" u.

Fixpoint distinct (l : list string) : bool :=
  match l with
  | [] => true
  | x :: l' => negb (existsb (String.eqb x) l') && distinct l'
  end.

Fixpoint all_some {A : Type} (l : list (option A)) : option (list A) :=
  match l with
  | [] => Some []
  | Some a :: l' => option_map (cons a) (all_some l')
  | None :: _ => None
  end.

(** [check_pages b p] holds when the file evaluates to a pages sequence
    all of whose records pass [b]. *)
Definition check_pages (b : Value -> bool) (p : Script) : bool :=
  match pages_of p with
  | Some rs => forallb b rs
  | None => false
  end.

Definition field_is (k : string) (b : string -> bool) (r : Value) : bool :=
  match field k r with
  | Some s => b s
  | None => false
  end.

Definition url_of_title_b (r : Value) : bool :=
  match field "title" r, field "url" r with
  | Some t, Some u => String.eqb u (t ++ ".html")
  | _, _ => false
  end.

Definition distinct_field (k : string) (rs : list Value) : bool :=
  match all_some (map (field k) rs) with
  | Some l => distinct l
  | None => false
  end.

(** The global environment outside [x] is left as it was. *)
Definition unchanged_outside (x : string) (env env' : Env) : Prop :=
  forall y, y <> x -> Assoc.get y env' = Assoc.get y env.

(** A script that is one [var x = e;] whose initialiser reads no
    variable. *)
Definition single_assignment (x : string) (p : Script) : Prop :=
  exists e, p = [ SVar x e ] /\ closed e = true.

(** ** Checks on a whole file *)

Definition top_level_b (p : Script) : bool :=
  match tipuesearch_of p with
  | Some (VObject [ (k, VArray rs) ]) =>
      String.eqb k "pages" && forallb page_record_b rs
  | _ => false
  end.

Definition non_empty_b (p : Script) : bool :=
  match pages_of p with
  | Some (r :: rs) => forallb page_record_b (r :: rs)
  | _ => false
  end.

Definition occurs_b (k s : string) (p : Script) : bool :=
  match pages_of p with
  | Some rs => existsb (field_is k (String.eqb s)) rs
  | None => false
  end.

Definition distinct_b (k : string) (p : Script) : bool :=
  match pages_of p with
  | Some rs => distinct_field k rs
  | None => false
  end.

Definition non_empty_string (s : string) : bool :=
  negb (String.eqb s "").

Definition titled_with_empty_text_b (t : string) (r : Value) : bool :=
  field_is "title" (String.eqb t) r
  && field_is "text" (String.eqb "") r
  && field_is "url" non_empty_string r.

Definition evaluates_b (e : Expr) : bool :=
  match eval [] e with
  | Some _ => true
  | None => false
  end.

Definition constant_b (x : string) (p : Script) : bool :=
  match p with
  | [ SVar y e ] => String.eqb y x && closed e && evaluates_b e
  | _ => false
  end.

(** ** Relations between the two files *)

(** What a link to a page is made of: its title, tags and url. *)
Definition Entry : Type := (string * string * string)%type.

Definition entry (r : Value) : option Entry :=
  match field "title" r, field "tags" r, field "url" r with
  | Some t, Some g, Some u => Some (t, g, u)
  | _, _, _ => None
  end.

Definition entry_eqb (a b : Entry) : bool :=
  let '(t, g, u) := a in
  let '(t', g', u') := b in
  String.eqb t t' && String.eqb g g' && String.eqb u u'.

(** [Subsequence l1 l2]: [l1] is [l2] with some elements left out, the
    others in the same order. *)
Inductive Subsequence {A : Type} : list A -> list A -> Prop :=
| Subsequence_nil : forall l, Subsequence [] l
| Subsequence_keep : forall a l1 l2,
    Subsequence l1 l2 -> Subsequence (a :: l1) (a :: l2)
| Subsequence_skip : forall a l1 l2,
    Subsequence l1 l2 -> Subsequence l1 (a :: l2).

Fixpoint subsequence_b {A : Type} (eqb : A -> A -> bool)
    (l1 l2 : list A) : bool :=
  match l1, l2 with
  | [], _ => true
  | _ :: _, [] => false
  | a :: l1', b :: l2' =>
      if eqb a b then subsequence_b eqb l1' l2'
      else subsequence_b eqb l1 l2'
  end.

Definition entries_of (p : Script) : option (list Entry) :=
  match pages_of p with
  | Some rs => all_some (map entry rs)
  | None => None
  end.

Definition extends_b (p1 p2 : Script) : bool :=
  match entries_of p1, entries_of p2 with
  | Some es1, Some es2 =>
      subsequence_b entry_eqb es1 es2
      && Nat.ltb (List.length es1) (List.length es2)
  | _, _ => false
  end.

(** Two records with one title and two texts. *)
Definition same_title_other_text_b (r1 r2 : Value) : bool :=
  match field "title" r1, field "title" r2,
        field "text" r1, field "text" r2 with
  | Some t1, Some t2, Some x1, Some x2 =>
      String.eqb t1 t2 && negb (String.eqb x1 x2)
  | _, _, _, _ => false
  end.

Definition texts_disagree_b (p1 p2 : Script) : bool :=
  match pages_of p1, pages_of p2 with
  | Some rs1, Some rs2 =>
      existsb (fun r1 => existsb (same_title_other_text_b r1) rs2) rs1
  | _, _ => false
  end.

(** ** Characters of the field values *)

Definition line_feed : ascii := "010"%char.

Definition is_control (c : ascii) : bool :=
  N.ltb (N_of_ascii c) 32 || N.eqb (N_of_ascii c) 127.

(** The characters that would make a link more than the name of a file
    in the directory of the page: path separators, the query and
    fragment marks, the percent sign of an escape and the colon. *)
Definition link_delimiters : list ascii :=
  [ "/"%char; backslash; "?"%char; "#"%char; "%"%char; ":"%char ].

Definition is_link_delimiter (c : ascii) : bool :=
  existsb (Ascii.eqb c) link_delimiters.

Definition file_name_b (s : string) : bool :=
  negb (String.eqb s "")
  && forallb (fun c => negb (is_control c) && negb (is_link_delimiter c))
       (list_ascii_of_string s).

Definition file_name (s : string) : Prop :=
  s <> "" /\
  forall c, In c (list_ascii_of_string s) ->
    is_control c = false /\ ~ In c link_delimiters.

Definition only_line_feeds_b (s : string) : bool :=
  forallb (fun c => negb (is_control c) || Ascii.eqb c line_feed)
    (list_ascii_of_string s).

Definition named_by_title_b (r : Value) : bool :=
  field_is "title" file_name_b r && field_is "url" file_name_b r.

(** ** Loading one file after another *)


(** * Lemmas on the fragment *)

Section AssocFacts.

Context {A : Type}.
Implicit Types (k : string) (v : A) (l : list (string * A)).

Lemma get_set_same k v l : Assoc.get k (Assoc.set k v l) = Some v.
Proof.
  induction l as [|[k' v'] l IH]; simpl.
  - now rewrite String.eqb_refl.
  - destruct (String.eqb k k') eqn:E; simpl; rewrite E; auto.
Qed.

Lemma get_set_other k k' v l :
  k' <> k -> Assoc.get k' (Assoc.set k v l) = Assoc.get k' l.
Proof.
  intros Hne. apply String.eqb_neq in Hne.
  induction l as [|[k0 v0] l IH]; simpl.
  - now rewrite Hne.
  - destruct (String.eqb k k0) eqn:E; simpl.
    + apply String.eqb_eq in E. subst k0. now rewrite Hne.
    + now rewrite IH.
Qed.

Lemma get_of_key k l :
  In k (Assoc.keys l) -> exists v, Assoc.get k l = Some v /\ In (k, v) l.
Proof.
  induction l as [|[k' v'] l IH]; simpl; [tauto|].
  intros Hin. destruct (String.eqb k k') eqn:E.
  - apply String.eqb_eq in E. subst k'. exists v'. auto.
  - destruct Hin as [Heq|Hin].
    + subst k'. now rewrite String.eqb_refl in E.
    + destruct (IH Hin) as (v & Hget & Hv). exists v. auto.
Qed.

End AssocFacts.

Lemma Forall_forallb {A : Type} (P : A -> Prop) (b : A -> bool) :
  (forall a, b a = true -> P a) ->
  forall l, forallb b l = true -> Forall P l.
Proof.
  intros Hb l. induction l as [|a l IH]; simpl; intros H; constructor.
  - apply Hb. now apply andb_true_iff in H.
  - apply IH. now apply andb_true_iff in H.
Qed.

Lemma check_pages_sound (P : Value -> Prop) (b : Value -> bool) :
  (forall r, b r = true -> P r) ->
  forall p, check_pages b p = true ->
    exists rs, pages_of p = Some rs /\ Forall P rs.
Proof.
  intros Hb p. unfold check_pages.
  destruct (pages_of p) as [rs|]; [|discriminate].
  intros H. exists rs. split; [reflexivity|].
  now apply Forall_forallb with (b := b).
Qed.

Lemma field_is_sound k b r :
  field_is k b r = true -> exists s, field k r = Some s /\ b s = true.
Proof.
  unfold field_is. destruct (field k r) as [s|]; [|discriminate].
  intros H. now exists s.
Qed.

Lemma is_string_sound v :
  is_string v = true ->
  v <> VNull /\ v <> VUndefined /\ typeof v = "string".
Proof.
  destruct v; simpl; try discriminate.
  intros _. repeat split; discriminate.
Qed.

Lemma page_record_b_sound r : page_record_b r = true -> page_record r.
Proof.
  destruct r as [| |s|elems|props]; simpl; try discriminate.
  destruct (list_eq_dec string_dec (Assoc.keys props) page_fields)
    as [Hkeys|]; [|discriminate].
  intros Hall. exists props. repeat split; trivial.
  intros k Hk. rewrite <- Hkeys in Hk.
  destruct (get_of_key k props Hk) as (v & Hget & Hin).
  exists v. split; [exact Hget|].
  apply is_string_sound.
  rewrite forallb_forall in Hall. exact (Hall (k, v) Hin).
Qed.

(** ** Evaluation of closed expressions *)

Lemma eval_closed e :
  closed e = true -> forall env1 env2, eval env1 e = eval env2 e.
Proof.
  induction e as [l|x|elems IH|props IH] using Expr_nested_ind;
    simpl; intros Hc env1 env2.
  - reflexivity.
  - discriminate.
  - f_equal.
    induction IH as [|e es He _ IHes]; simpl in *; [reflexivity|].
    apply andb_true_iff in Hc as [Hc1 Hc2].
    now rewrite (He Hc1 env1 env2), (IHes Hc2).
  - f_equal. generalize (@nil (string * Value)).
    induction IH as [|[k e] ps He _ IHps]; simpl in *; intros acc;
      [reflexivity|].
    apply andb_true_iff in Hc as [Hc1 Hc2].
    rewrite (He Hc1 env1 env2).
    destruct (string_value k), (eval env2 e); auto.
Qed.

Lemma hoist_single x e env :
  unchanged_outside x env (hoist [ SVar x e ] env).
Proof.
  intros y Hy. unfold hoist. simpl.
  destruct (Assoc.get x env); [reflexivity|].
  now apply get_set_other.
Qed.

(** Running [var x = e;] with [e] closed binds [x] to the value of [e],
    whatever the environment it starts from, and touches nothing else. *)
Lemma run_single_closed x e v :
  closed e = true -> eval [] e = Some v ->
  forall env, exists env',
    run [ SVar x e ] env = Some env' /\
    Assoc.get x env' = Some v /\
    unchanged_outside x env env'.
Proof.
  intros Hc Hv env.
  exists (Assoc.set x v (hoist [ SVar x e ] env)). split; [|split].
  - unfold run. cbn [exec_all exec].
    now rewrite (eval_closed e Hc (hoist [ SVar x e ] env) []), Hv.
  - apply get_set_same.
  - intros y Hy. rewrite get_set_other by exact Hy.
    now apply hoist_single.
Qed.

(** ** Strings and lists *)

Lemma has_char_middle c a b : has_char c (a ++ String c b) = true.
Proof.
  induction a as [|c' a IH]; simpl.
  - now rewrite Ascii.eqb_refl.
  - rewrite IH. apply orb_true_r.
Qed.

Lemma scheme_has_colon s : has_scheme s -> has_char ":" s = true.
Proof.
  intros (name & rest & _ & ->). apply has_char_middle.
Qed.

Lemma has_suffix_unfold suffix s :
  has_suffix suffix s
  = String.eqb s suffix
    || match s with
       | EmptyString => false
       | String _ s' => has_suffix suffix s'
       end.
Proof. destruct s; reflexivity. Qed.

Lemma has_suffix_sound suffix s :
  has_suffix suffix s = true -> ends_with suffix s.
Proof.
  induction s as [|c s IH]; rewrite has_suffix_unfold; intros H;
    apply orb_true_iff in H as [H|H].
  - apply String.eqb_eq in H. now exists "".
  - discriminate.
  - apply String.eqb_eq in H. now exists "".
  - destruct (IH H) as [stem ->]. now exists (String c stem).
Qed.

Lemma relative_html_b_sound u :
  relative_html_b u = true -> relative_path u /\ ends_with ".html" u.
Proof.
  unfold relative_html_b. intros H.
  apply andb_true_iff in H as [H Hsuffix].
  apply andb_true_iff in H as [Hcolon Hslash].
  apply negb_true_iff in Hcolon, Hslash.
  split; [split|].
  - intros Hs. apply scheme_has_colon in Hs. congruence.
  - intros [rest ->]. discriminate.
  - now apply has_suffix_sound.
Qed.

Lemma distinct_sound l : distinct l = true -> NoDup l.
Proof.
  induction l as [|x l IH]; simpl; intros H; constructor.
  - apply andb_true_iff in H as [H _]. apply negb_true_iff in H.
    intros Hin. enough (existsb (String.eqb x) l = true) by congruence.
    apply existsb_exists. exists x. split; [exact Hin|].
    apply String.eqb_refl.
  - apply IH. now apply andb_true_iff in H.
Qed.

Lemma all_some_sound {A : Type} (l : list (option A)) l' :
  all_some l = Some l' -> l = map Some l'.
Proof.
  revert l'. induction l as [|[a|] l IH]; simpl; intros l' H.
  - now inversion H.
  - destruct (all_some l) as [l0|]; [|discriminate].
    inversion H. simpl. now rewrite (IH l0).
  - discriminate.
Qed.

Lemma distinct_field_sound k rs :
  distinct_field k rs = true ->
  exists l, map (field k) rs = map Some l /\ NoDup l.
Proof.
  unfold distinct_field.
  destruct (all_some (map (field k) rs)) as [l|] eqn:E; [|discriminate].
  intros H. exists l. split.
  - now apply all_some_sound.
  - now apply distinct_sound.
Qed.

Lemma shared_element_not_NoDup {A : Type} (x : A) l1 l2 :
  In x l1 -> In x l2 -> ~ NoDup (l1 ++ l2).
Proof.
  intros H1 H2. induction l1 as [|a l1 IH]; simpl in *; [tauto|].
  intros Hnd. inversion Hnd as [|? ? Hnotin Hnd']; subst.
  destruct H1 as [->|H1].
  - apply Hnotin. apply in_or_app. now right.
  - now apply IH.
Qed.

(** ** The literal scanner on small inputs *)

Example scan_escapes :
  string_value (sq "a\n\xa0\u3000\'b")
  = Some ("a" ++ String "010" (String "194" (String "160"
            (String "227" (String "128" (String "128" ("'b"))))))).
Proof. reflexivity. Qed.

Example scan_utf8_bytes : string_value (sq "三") = Some "三" /\ String.length "三" = 3.
Proof. split; reflexivity. Qed.

Example scan_unescaped_delimiter :
  string_value (sq "it's") = None /\ string_value (dq "it's") = Some "it's".
Proof. split; reflexivity. Qed.

Example scan_bad_hex : string_value (sq "\xg0") = None.
Proof. reflexivity. Qed.

Example eval_duplicate_key :
  eval [] (EObject [ (sq "a", EString (sq "1")); (sq "b", EString (sq "2"));
                     (sq "a", EString (sq "3")) ])
  = Some (VObject [ ("a", VString "3"); ("b", VString "2") ]).
Proof. reflexivity. Qed.

Example eval_unbound_identifier : eval [] (EArray [ EIdent "x" ]) = None.
Proof. reflexivity. Qed.

Example pages_counts :
  option_map (@List.length Value) (pages_of TipuesearchContentJs.script)
  = Some 12
  /\ option_map (@List.length Value) (pages_of Part000.script) = Some 19.
Proof. split; vm_compute; reflexivity. Qed.

Example first_page_fields :
  option_map (fun rs => map (field "url") (firstn 2 rs))
    (pages_of TipuesearchContentJs.script)
  = Some [ Some "About.html"; Some "三道牆理論.html" ].
Proof. vm_compute. reflexivity. Qed.

(** * The claims about the two data files *)

(** C1.  For every record in the pages sequence of each of the two data
    files, the record has exactly the four fields title, text, tags and
    url, each field is present and not null, and each field's value is a
    string. *)
Theorem C1_records_have_four_string_fields :
  Forall
    (fun p => exists rs, pages_of p = Some rs /\ Forall page_record rs)
    data_files.
Proof.
  repeat constructor;
    (apply (check_pages_sound page_record page_record_b);
     [exact page_record_b_sound | vm_compute; reflexivity]).
Qed.

(** C2.  For every record in the pages sequence of each of the two data
    files, the url field is a relative path (it has no URI scheme and is
    not an absolute path) and its string value ends with the suffix
    ".html". *)
Theorem C2_urls_are_relative_html_paths :
  Forall
    (fun p => exists rs,
       pages_of p = Some rs /\
       Forall
         (fun r => exists u,
            field "url" r = Some u /\
            relative_path u /\ ends_with ".html" u)
         rs)
    data_files.
Proof.
  repeat constructor;
    (apply (check_pages_sound _ (field_is "url" relative_html_b));
     [ intros r Hr; apply field_is_sound in Hr as (u & Hu & Hb);
       exists u; split; [exact Hu | now apply relative_html_b_sound]
     | vm_compute; reflexivity ]).
Qed.

(** C3.  For every record in the pages sequence of each of the two data
    files, the tags field equals the empty string. *)
Theorem C3_tags_are_empty :
  Forall
    (fun p => exists rs,
       pages_of p = Some rs /\
       Forall (fun r => field "tags" r = Some "") rs)
    data_files.
Proof.
  repeat constructor;
    (apply (check_pages_sound _ (field_is "tags" (String.eqb "")));
     [ intros r Hr; apply field_is_sound in Hr as (s & Hs & Hb);
       apply String.eqb_eq in Hb; now subst s
     | vm_compute; reflexivity ]).
Qed.

Lemma top_level_b_sound p :
  top_level_b p = true ->
  exists props rs,
    tipuesearch_of p = Some (VObject props) /\
    Assoc.keys props = [ "pages" ] /\
    own_property (VObject props) "pages" = Some (VArray rs) /\
    Forall page_record rs.
Proof.
  unfold top_level_b.
  destruct (tipuesearch_of p) as [[| | | |[|[k [| | |rs|]] [|]]]|];
    try discriminate.
  intros H. apply andb_true_iff in H as [Hk Hrs].
  apply String.eqb_eq in Hk. subst k.
  exists [ ("pages", VArray rs) ], rs. repeat split.
  now apply (Forall_forallb _ _ page_record_b_sound).
Qed.

(** C4.  In each of the two data files, the top-level value assigned to
    the tipuesearch variable is an object with exactly one key, "pages",
    and the value under that key is an ordered sequence of page
    records. *)
Theorem C4_top_level_is_object_with_pages :
  Forall
    (fun p => exists props rs,
       tipuesearch_of p = Some (VObject props) /\
       Assoc.keys props = [ "pages" ] /\
       own_property (VObject props) "pages" = Some (VArray rs) /\
       Forall page_record rs)
    data_files.
Proof.
  repeat constructor; (apply top_level_b_sound; vm_compute; reflexivity).
Qed.

Lemma non_empty_b_sound p :
  non_empty_b p = true ->
  exists rs, pages_of p = Some rs /\ rs <> [] /\ Forall page_record rs.
Proof.
  unfold non_empty_b.
  destruct (pages_of p) as [[|r rs]|]; try discriminate.
  intros H. exists (r :: rs). repeat split; [discriminate|].
  now apply (Forall_forallb _ _ page_record_b_sound).
Qed.

(** C5.  In each of the two data files, the pages sequence is non-empty:
    it contains at least one page record. *)
Theorem C5_pages_non_empty :
  Forall
    (fun p => exists rs,
       pages_of p = Some rs /\ rs <> [] /\ Forall page_record rs)
    data_files.
Proof.
  repeat constructor; (apply non_empty_b_sound; vm_compute; reflexivity).
Qed.

Lemma occurs_b_sound k s p :
  occurs_b k s p = true ->
  exists rs, pages_of p = Some rs /\ In (Some s) (map (field k) rs).
Proof.
  unfold occurs_b. destruct (pages_of p) as [rs|]; [|discriminate].
  intros H. exists rs. split; [reflexivity|].
  apply existsb_exists in H as (r & Hr & Hb).
  apply field_is_sound in Hb as (s' & Hs' & Heq).
  apply String.eqb_eq in Heq. subst s'.
  rewrite <- Hs'. now apply in_map.
Qed.

Lemma repeats_across k s p1 p2 :
  occurs_b k s p1 = true -> occurs_b k s p2 = true ->
  forall rs1 rs2, pages_of p1 = Some rs1 -> pages_of p2 = Some rs2 ->
    In (Some s) (map (field k) rs1) /\
    In (Some s) (map (field k) rs2) /\
    ~ NoDup (map (field k) (rs1 ++ rs2)).
Proof.
  intros H1 H2 rs1 rs2 E1 E2.
  apply occurs_b_sound in H1 as (l1 & El1 & Hin1).
  apply occurs_b_sound in H2 as (l2 & El2 & Hin2).
  rewrite E1 in El1. rewrite E2 in El2.
  inversion El1. inversion El2. subst l1 l2.
  repeat split; trivial.
  rewrite map_app. now apply shared_element_not_NoDup with (x := Some s).
Qed.

(** C6.  Titles and urls repeat across the two data files: some title
    string is the title of a record in both files, and some url string
    is the url of a record in both files, so neither the titles nor the
    urls of the union of the two sequences are free of duplicates. *)
Theorem C6_titles_and_urls_repeat_across_files :
  exists rs1 rs2,
    pages_of TipuesearchContentJs.script = Some rs1 /\
    pages_of Part000.script = Some rs2 /\
    (exists t,
       In (Some t) (map (field "title") rs1) /\
       In (Some t) (map (field "title") rs2)) /\
    (exists u,
       In (Some u) (map (field "url") rs1) /\
       In (Some u) (map (field "url") rs2)) /\
    ~ NoDup (map (field "title") (rs1 ++ rs2)) /\
    ~ NoDup (map (field "url") (rs1 ++ rs2)).
Proof.
  assert (Ht1 : occurs_b "title" "About" TipuesearchContentJs.script = true)
    by (vm_compute; reflexivity).
  assert (Ht2 : occurs_b "title" "About" Part000.script = true)
    by (vm_compute; reflexivity).
  assert (Hu1 : occurs_b "url" "About.html" TipuesearchContentJs.script = true)
    by (vm_compute; reflexivity).
  assert (Hu2 : occurs_b "url" "About.html" Part000.script = true)
    by (vm_compute; reflexivity).
  destruct (occurs_b_sound _ _ _ Ht1) as (rs1 & E1 & _).
  destruct (occurs_b_sound _ _ _ Ht2) as (rs2 & E2 & _).
  exists rs1, rs2.
  destruct (repeats_across _ _ _ _ Ht1 Ht2 rs1 rs2 E1 E2) as (T1 & T2 & T).
  destruct (repeats_across _ _ _ _ Hu1 Hu2 rs1 rs2 E1 E2) as (U1 & U2 & U).
  split; [exact E1|]. split; [exact E2|].
  split; [exists "About"; split; [exact T1 | exact T2]|].
  split; [exists "About.html"; split; [exact U1 | exact U2]|].
  split; [exact T | exact U].
Qed.

Lemma constant_b_sound x p :
  constant_b x p = true ->
  single_assignment x p /\
  exists v, forall env, exists env',
    run p env = Some env' /\
    Assoc.get x env' = Some v /\
    unchanged_outside x env env'.
Proof.
  destruct p as [|[y e] [|]]; simpl; try discriminate.
  intros H. apply andb_true_iff in H as [H Hev].
  apply andb_true_iff in H as [Hy Hc].
  apply String.eqb_eq in Hy. subst y.
  split; [now exists e|].
  unfold evaluates_b in Hev.
  destruct (eval [] e) as [v|] eqn:Hv; [|discriminate].
  exists v. now apply run_single_closed.
Qed.

(** C7.  The data structure is read-only after its single assignment.
    Each file is the one statement [var tipuesearch = e;] and nothing
    else, its initialiser reads no variable, and so from any global
    environment the file runs to an environment that binds
    [tipuesearch] to one and the same value and leaves every other
    binding as it was: any two evaluations of a file yield equal
    values. *)
Theorem C7_tipuesearch_is_constant :
  Forall
    (fun p =>
       single_assignment "tipuesearch" p /\
       exists v, forall env, exists env',
         run p env = Some env' /\
         Assoc.get "tipuesearch" env' = Some v /\
         unchanged_outside "tipuesearch" env env')
    data_files.
Proof.
  repeat constructor; (apply constant_b_sound; vm_compute; reflexivity).
Qed.

Lemma url_of_title_b_sound r :
  url_of_title_b r = true ->
  exists t, field "title" r = Some t /\ field "url" r = Some (t ++ ".html").
Proof.
  unfold url_of_title_b.
  destruct (field "title" r) as [t|]; [|discriminate].
  destruct (field "url" r) as [u|]; [|discriminate].
  intros H. apply String.eqb_eq in H. subst u. now exists t.
Qed.

(** C8.  For every record in the pages sequence of each of the two data
    files, the url field equals the title field followed by the suffix
    ".html". *)
Theorem C8_url_is_title_dot_html :
  Forall
    (fun p => exists rs,
       pages_of p = Some rs /\
       Forall
         (fun r => exists t,
            field "title" r = Some t /\
            field "url" r = Some (t ++ ".html"))
         rs)
    data_files.
Proof.
  repeat constructor;
    (apply (check_pages_sound _ url_of_title_b);
     [exact url_of_title_b_sound | vm_compute; reflexivity]).
Qed.

Lemma distinct_b_sound k p :
  distinct_b k p = true ->
  exists rs l,
    pages_of p = Some rs /\ map (field k) rs = map Some l /\ NoDup l.
Proof.
  unfold distinct_b. destruct (pages_of p) as [rs|]; [|discriminate].
  intros H. apply distinct_field_sound in H as (l & Hl & Hnd).
  now exists rs, l.
Qed.

(** C9.  Within each single data file, the url fields of the records in
    the pages sequence are pairwise distinct, and so are the title
    fields: no title and no url occurs twice inside one file's
    sequence. *)
Theorem C9_titles_and_urls_distinct_within_a_file :
  Forall
    (fun p => exists rs titles urls,
       pages_of p = Some rs /\
       map (field "title") rs = map Some titles /\ NoDup titles /\
       map (field "url") rs = map Some urls /\ NoDup urls)
    data_files.
Proof.
  assert (H : forall p,
             distinct_b "title" p = true -> distinct_b "url" p = true ->
             exists rs titles urls,
               pages_of p = Some rs /\
               map (field "title") rs = map Some titles /\ NoDup titles /\
               map (field "url") rs = map Some urls /\ NoDup urls).
  { intros p Ht Hu.
    apply distinct_b_sound in Ht as (rs & titles & E & Ht & Hndt).
    apply distinct_b_sound in Hu as (rs' & urls & E' & Hu & Hndu).
    rewrite E in E'. inversion E'. subst rs'.
    now exists rs, titles, urls. }
  repeat constructor; (apply H; vm_compute; reflexivity).
Qed.

Lemma titled_with_empty_text_b_sound t r :
  titled_with_empty_text_b t r = true ->
  field "title" r = Some t /\
  field "text" r = Some "" /\
  exists u, field "url" r = Some u /\ u <> "".
Proof.
  unfold titled_with_empty_text_b. intros H.
  apply andb_true_iff in H as [H Hurl].
  apply andb_true_iff in H as [Htitle Htext].
  apply field_is_sound in Htitle as (t' & Ht' & Heq).
  apply String.eqb_eq in Heq. subst t'.
  apply field_is_sound in Htext as (x & Hx & Heq).
  apply String.eqb_eq in Heq. subst x.
  apply field_is_sound in Hurl as (u & Hu & Hne).
  apply negb_true_iff, String.eqb_neq in Hne.
  repeat split; trivial. now exists u.
Qed.

(** C10.  A record's text field may be the empty string even though all
    four fields are present: the pages sequence of
    content/tipuesearch_content.js has a record titled "Google" that is
    a well-shaped page record, whose text field is the empty string and
    whose title and url fields are non-empty. *)
Theorem C10_google_record_has_empty_text :
  exists rs r,
    pages_of TipuesearchContentJs.script = Some rs /\
    In r rs /\
    page_record r /\
    field "title" r = Some "Google" /\ "Google" <> "" /\
    field "text" r = Some "" /\
    exists u, field "url" r = Some u /\ u <> "".
Proof.
  assert (H : check_pages page_record_b TipuesearchContentJs.script = true)
    by (vm_compute; reflexivity).
  assert (G : match pages_of TipuesearchContentJs.script with
              | Some rs => existsb (titled_with_empty_text_b "Google") rs
              | None => false
              end = true)
    by (vm_compute; reflexivity).
  apply (check_pages_sound _ _ page_record_b_sound) in H as (rs & E & Hall).
  rewrite E in G. apply existsb_exists in G as (r & Hin & Hr).
  apply titled_with_empty_text_b_sound in Hr as (Ht & Hx & Hu).
  exists rs, r.
  split; [exact E|]. split; [exact Hin|].
  split; [exact (proj1 (Forall_forall _ _) Hall r Hin)|].
  split; [exact Ht|]. split; [discriminate|].
  split; [exact Hx | exact Hu].
Qed.

(** * Further properties of the two files *)

(** ** Loading a file again, and loading both files *)












(** ** The second file extends the first *)

Lemma entry_eqb_sound a b : entry_eqb a b = true -> a = b.
Proof.
  destruct a as [[t g] u], b as [[t' g'] u']. simpl. intros H.
  apply andb_true_iff in H as [H Hu].
  apply andb_true_iff in H as [Ht Hg].
  apply String.eqb_eq in Ht, Hg, Hu. now subst.
Qed.

Lemma subsequence_b_sound {A : Type} (eqb : A -> A -> bool) :
  (forall a b, eqb a b = true -> a = b) ->
  forall l2 l1, subsequence_b eqb l1 l2 = true -> Subsequence l1 l2.
Proof.
  intros Heqb l2.
  induction l2 as [|b l2 IH]; intros [|a l1] H; simpl in H;
    try discriminate; try (now constructor).
  destruct (eqb a b) eqn:E.
  - apply Heqb in E. subst b. constructor. now apply IH.
  - constructor. now apply IH.
Qed.

Lemma Subsequence_incl {A : Type} (l1 l2 : list A) :
  Subsequence l1 l2 -> incl l1 l2.
Proof.
  induction 1 as [l|a l1 l2 _ IH|a l1 l2 _ IH]; intros x Hx.
  - destruct Hx.
  - destruct Hx as [->|Hx]; [now left | right; now apply IH].
  - right. now apply IH.
Qed.

Lemma entries_of_sound p es :
  entries_of p = Some es ->
  exists rs, pages_of p = Some rs /\ map entry rs = map Some es.
Proof.
  unfold entries_of. destruct (pages_of p) as [rs|]; [|discriminate].
  intros H. exists rs. split; [reflexivity|]. now apply all_some_sound.
Qed.

Lemma extends_b_sound p1 p2 :
  extends_b p1 p2 = true ->
  exists rs1 rs2 es1 es2,
    pages_of p1 = Some rs1 /\ pages_of p2 = Some rs2 /\
    map entry rs1 = map Some es1 /\ map entry rs2 = map Some es2 /\
    Subsequence es1 es2 /\ incl es1 es2 /\
    List.length es1 < List.length es2.
Proof.
  unfold extends_b.
  destruct (entries_of p1) as [es1|] eqn:E1; [|discriminate].
  destruct (entries_of p2) as [es2|] eqn:E2; [|discriminate].
  intros H. apply andb_true_iff in H as [Hsub Hlen].
  apply entries_of_sound in E1 as (rs1 & Hrs1 & Hes1).
  apply entries_of_sound in E2 as (rs2 & Hrs2 & Hes2).
  apply (subsequence_b_sound _ entry_eqb_sound) in Hsub.
  apply Nat.ltb_lt in Hlen.
  exists rs1, rs2, es1, es2. repeat split; trivial.
  now apply Subsequence_incl.
Qed.

(** X3.  The second data file extends the first: the title, tags and
    url of the records of content/tipuesearch_content.js, in their
    order, are those of the records of the second file with some
    records left out, so every page listed by the first file is listed
    by the second with the same title, tags and url, and the second
    file lists strictly more pages. *)
Theorem X3_second_file_extends_first :
  exists rs1 rs2 es1 es2,
    pages_of TipuesearchContentJs.script = Some rs1 /\
    pages_of Part000.script = Some rs2 /\
    map entry rs1 = map Some es1 /\ map entry rs2 = map Some es2 /\
    Subsequence es1 es2 /\ incl es1 es2 /\
    List.length es1 < List.length es2.
Proof. apply extends_b_sound. vm_compute. reflexivity. Qed.

Lemma same_title_other_text_b_sound r1 r2 :
  same_title_other_text_b r1 r2 = true ->
  exists t x1 x2,
    field "title" r1 = Some t /\ field "title" r2 = Some t /\
    field "text" r1 = Some x1 /\ field "text" r2 = Some x2 /\ x1 <> x2.
Proof.
  unfold same_title_other_text_b.
  destruct (field "title" r1) as [t1|]; [|discriminate].
  destruct (field "title" r2) as [t2|]; [|discriminate].
  destruct (field "text" r1) as [x1|]; [|discriminate].
  destruct (field "text" r2) as [x2|]; [|discriminate].
  intros H. apply andb_true_iff in H as [Ht Hx].
  apply String.eqb_eq in Ht. subst t2.
  apply negb_true_iff, String.eqb_neq in Hx.
  now exists t1, x1, x2.
Qed.

Lemma texts_disagree_b_sound p1 p2 :
  texts_disagree_b p1 p2 = true ->
  exists rs1 rs2 r1 r2 t x1 x2,
    pages_of p1 = Some rs1 /\ pages_of p2 = Some rs2 /\
    In r1 rs1 /\ In r2 rs2 /\
    field "title" r1 = Some t /\ field "title" r2 = Some t /\
    field "text" r1 = Some x1 /\ field "text" r2 = Some x2 /\ x1 <> x2.
Proof.
  unfold texts_disagree_b.
  destruct (pages_of p1) as [rs1|]; [|discriminate].
  destruct (pages_of p2) as [rs2|]; [|discriminate].
  intros H. apply existsb_exists in H as (r1 & Hin1 & H).
  apply existsb_exists in H as (r2 & Hin2 & H).
  apply same_title_other_text_b_sound in H
    as (t & x1 & x2 & Ht1 & Ht2 & Hx1 & Hx2 & Hne).
  exists rs1, rs2, r1, r2, t, x1, x2. repeat split; trivial.
Qed.

(** X4.  The two files are no copies of one another on the pages they
    share: some title is the title of a record in each file, and the two
    records have different texts.  A title does not determine the text
    across the files. *)
Theorem X4_shared_title_with_different_text :
  exists rs1 rs2 r1 r2 t x1 x2,
    pages_of TipuesearchContentJs.script = Some rs1 /\
    pages_of Part000.script = Some rs2 /\
    In r1 rs1 /\ In r2 rs2 /\
    field "title" r1 = Some t /\ field "title" r2 = Some t /\
    field "text" r1 = Some x1 /\ field "text" r2 = Some x2 /\ x1 <> x2.
Proof. apply texts_disagree_b_sound. vm_compute. reflexivity. Qed.

(** ** Characters of titles, urls and texts *)

Lemma file_name_b_sound s : file_name_b s = true -> file_name s.
Proof.
  unfold file_name_b. intros H. apply andb_true_iff in H as [Hne Hall].
  apply negb_true_iff, String.eqb_neq in Hne. split; [exact Hne|].
  intros c Hc. rewrite forallb_forall in Hall.
  specialize (Hall c Hc). apply andb_true_iff in Hall as [Hctl Hdel].
  apply negb_true_iff in Hctl, Hdel. split; [exact Hctl|].
  intros Hin. unfold is_link_delimiter in Hdel.
  enough (existsb (Ascii.eqb c) link_delimiters = true) by congruence.
  apply existsb_exists. exists c. split; [exact Hin|].
  apply Ascii.eqb_refl.
Qed.

Lemma named_by_title_b_sound r :
  named_by_title_b r = true ->
  exists t u,
    field "title" r = Some t /\ field "url" r = Some u /\
    file_name t /\ file_name u.
Proof.
  unfold named_by_title_b. intros H. apply andb_true_iff in H as [Ht Hu].
  apply field_is_sound in Ht as (t & Ht & Hbt).
  apply field_is_sound in Hu as (u & Hu & Hbu).
  exists t, u. split; [exact Ht|]. split; [exact Hu|].
  split; now apply file_name_b_sound.
Qed.

(** X5.  In both files every title and every url is the plain name of a
    file: it is not empty, it has no control character, and it has no
    slash, backslash, question mark, number sign, percent sign or
    colon.  A url thus names a file beside the page that links to it,
    with no directory, query, fragment or percent escape. *)
Theorem X5_titles_and_urls_are_file_names :
  Forall
    (fun p => exists rs,
       pages_of p = Some rs /\
       Forall
         (fun r => exists t u,
            field "title" r = Some t /\ field "url" r = Some u /\
            file_name t /\ file_name u)
         rs)
    data_files.
Proof.
  repeat constructor;
    (apply (check_pages_sound _ named_by_title_b);
     [exact named_by_title_b_sound | vm_compute; reflexivity]).
Qed.

Lemma only_line_feeds_b_sound s :
  only_line_feeds_b s = true ->
  forall c, In c (list_ascii_of_string s) ->
    is_control c = true -> c = line_feed.
Proof.
  unfold only_line_feeds_b. intros H c Hc Hctl.
  rewrite forallb_forall in H. specialize (H c Hc).
  rewrite Hctl in H. simpl in H. now apply Ascii.eqb_eq in H.
Qed.

(** X6.  In both files the only control character a text holds is the
    line feed its [\n] escapes stand for: no text has a tab, a carriage
    return, a NUL or any other control character. *)
Theorem X6_texts_have_no_control_character_but_line_feed :
  Forall
    (fun p => exists rs,
       pages_of p = Some rs /\
       Forall
         (fun r => exists x,
            field "text" r = Some x /\
            forall c, In c (list_ascii_of_string x) ->
              is_control c = true -> c = line_feed)
         rs)
    data_files.
Proof.
  repeat constructor;
    (apply (check_pages_sound _ (field_is "text" only_line_feeds_b));
     [ intros r Hr; apply field_is_sound in Hr as (x & Hx & Hb);
       exists x; split; [exact Hx | now apply only_line_feeds_b_sound]
     | vm_compute; reflexivity ]).
Qed.

(** ** Titles and urls name the same pages *)

Lemma length_append a b :
  String.length (a ++ b) = String.length a + String.length b.
Proof. induction a as [|c a IH]; simpl; [reflexivity | now rewrite IH]. Qed.

Lemma append_cancel_r a b s : a ++ s = b ++ s -> a = b.
Proof.
  revert b. induction a as [|c a IH]; intros [|c' b] H; simpl in H.
  - reflexivity.
  - apply (f_equal String.length) in H. simpl in H.
    rewrite length_append in H. lia.
  - apply (f_equal String.length) in H. simpl in H.
    rewrite length_append in H. lia.
  - injection H as -> H. now rewrite (IH b H).
Qed.

Lemma url_names_title r1 r2 :
  (exists t, field "title" r1 = Some t /\
             field "url" r1 = Some (t ++ ".html")) ->
  (exists t, field "title" r2 = Some t /\
             field "url" r2 = Some (t ++ ".html")) ->
  field "url" r1 = field "url" r2 <-> field "title" r1 = field "title" r2.
Proof.
  intros (t1 & Ht1 & Hu1) (t2 & Ht2 & Hu2).
  rewrite Ht1, Ht2, Hu1, Hu2. split; intros H; injection H as H.
  - now rewrite (append_cancel_r _ _ _ H).
  - now subst.
Qed.

(** X7.  Across the two files taken together, the url and the title
    name the same pages: two records, of one file or of both, have the
    same url exactly when they have the same title. *)
Theorem X7_same_url_iff_same_title_across_files :
  exists rs1 rs2,
    pages_of TipuesearchContentJs.script = Some rs1 /\
    pages_of Part000.script = Some rs2 /\
    Forall
      (fun r1 =>
         Forall
           (fun r2 =>
              field "url" r1 = field "url" r2
              <-> field "title" r1 = field "title" r2)
           (rs1 ++ rs2))
      (rs1 ++ rs2).
Proof.
  assert (H1 : check_pages url_of_title_b TipuesearchContentJs.script = true)
    by (vm_compute; reflexivity).
  assert (H2 : check_pages url_of_title_b Part000.script = true)
    by (vm_compute; reflexivity).
  apply (check_pages_sound _ _ url_of_title_b_sound) in H1 as (rs1 & E1 & F1).
  apply (check_pages_sound _ _ url_of_title_b_sound) in H2 as (rs2 & E2 & F2).
  exists rs1, rs2. split; [exact E1|]. split; [exact E2|].
  assert (F : Forall
                (fun r => exists t,
                   field "title" r = Some t /\
                   field "url" r = Some (t ++ ".html"))
                (rs1 ++ rs2))
    by (apply Forall_app; now split).
  rewrite Forall_forall in F.
  apply Forall_forall. intros r1 Hr1.
  apply Forall_forall. intros r2 Hr2.
  apply url_names_title; now apply F.
Qed.
